(** * PCA9535 16-bit I2C I/O expander (Wokwi custom chip)

    A shallow embedding of [src/pca9535.chip.c].  The chip is a purely
    reactive state machine: the simulator calls one of four I2C callbacks
    or one of two pin-change callbacks, and each callback mutates the single
    [chip_state_t] block and issues pin commands to the simulator.

    The C code is rendered with explicit state passing.  Two pieces of state
    are threaded through every function: the chip's own struct and the
    simulator ("host") side that the functions of [wokwi-api.h] act on.
    Array accesses outside the declared bounds and shifts by 32 or more are
    undefined in C; here they make the enclosing function return [None]. *)

From Stdlib Require Import ZArith Lia.
From stdpp Require Import base option list gmap strings.

Open Scope Z_scope.

(** ** Constants of the source *)

Definition I2C_BASE_ADDRESS : Z := 0x20.
Definition NUM_GPIO : Z := 16.
Definition NUM_ADDR_BITS : Z := 3.

(** Wrap-around of the fixed-width unsigned types. *)
Definition u8 (x : Z) : Z := x mod 256.
Definition u16 (x : Z) : Z := x mod 65536.

(** ** The simulator interface ([wokwi-api.h])

    The header belongs to the simulator, not to the chip.  What the chip
    relies on is modelled here: a pin handle stands for a named pin, each pin
    has an electrical mode, at most one edge watch, and a logic level that
    the simulator reports through [pin_read]. *)

Module Host.

(** A pin handle; [pin_init] hands out the handle of the pin of that name. *)
Definition pin_t : Type := string.

Inductive pin_mode_t := INPUT | OUTPUT | INPUT_PULLUP | INPUT_PULLDOWN
                      | ANALOG | OUTPUT_LOW | OUTPUT_HIGH.

Inductive edge_t := RISING | FALLING | BOTH.

(** The callbacks the chip registers; a function pointer of the C code is
    rendered as the name of the function it points to. *)
Inductive callback_t :=
| cb_on_i2c_connect | cb_on_i2c_read | cb_on_i2c_write | cb_on_i2c_disconnect
| cb_chip_addr_change | cb_chip_input_io_change.

(** [pin_watch_config_t]; the [user_data] field always carries the one
    chip block and is left out. *)
Record pin_watch_config_t := WatchConfig {
  edge : edge_t;
  pin_change : callback_t
}.

(** [i2c_config_t], again without [user_data]. *)
Record i2c_config_t := I2cConfig {
  cfg_address : Z;
  scl : pin_t;
  sda : pin_t;
  connect : callback_t;
  read : callback_t;
  write : callback_t;
  disconnect : callback_t
}.

#[global] Instance pin_mode_eq_dec : EqDecision pin_mode_t.
Proof. solve_decision. Defined.

#[global] Instance edge_eq_dec : EqDecision edge_t.
Proof. solve_decision. Defined.

#[global] Instance callback_eq_dec : EqDecision callback_t.
Proof. solve_decision. Defined.

#[global] Instance pin_watch_config_eq_dec : EqDecision pin_watch_config_t.
Proof. solve_decision. Defined.

(** What the chip prints, one constructor per line of output with the
    values it formats. *)
Inductive out_t :=
| PrintIntFlagSet
| PrintAddrMismatch (received own : Z)
| PrintReadResetInt
| PrintInputMask (mask : Z)
| PrintAddress (lsbits configured : Z)
| PrintIoChanged (from to : Z)
| PrintI2cInitialized (addr : Z).

Record host_t := Host {
  pin_modes : gmap pin_t pin_mode_t;
  pin_watches : gmap pin_t pin_watch_config_t;
  pin_levels : pin_t -> bool;
  i2c_devices : list i2c_config_t;
  stdout : list out_t
}.

Definition with_modes (f : gmap pin_t pin_mode_t -> gmap pin_t pin_mode_t)
    (h : host_t) : host_t :=
  Host (f (pin_modes h)) (pin_watches h) (pin_levels h) (i2c_devices h)
       (stdout h).

Definition with_watches
    (f : gmap pin_t pin_watch_config_t -> gmap pin_t pin_watch_config_t)
    (h : host_t) : host_t :=
  Host (pin_modes h) (f (pin_watches h)) (pin_levels h) (i2c_devices h)
       (stdout h).

Definition printf (o : out_t) (h : host_t) : host_t :=
  Host (pin_modes h) (pin_watches h) (pin_levels h) (i2c_devices h)
       (stdout h ++ [o]).

Definition pin_init (name : string) (mode : pin_mode_t) (h : host_t)
    : pin_t * host_t :=
  (name, with_modes (insert name mode) h).

Definition pin_mode (pin : pin_t) (mode : pin_mode_t) (h : host_t) : host_t :=
  with_modes (insert pin mode) h.

Definition pin_read (pin : pin_t) (h : host_t) : bool := pin_levels h pin.

(** A pin carries one watch at most: a second [pin_watch] is refused and
    answers [false]. *)
Definition pin_watch (pin : pin_t) (config : pin_watch_config_t)
    (h : host_t) : bool * host_t :=
  match pin_watches h !! pin with
  | Some _ => (false, h)
  | None => (true, with_watches (insert pin config) h)
  end.

Definition pin_watch_stop (pin : pin_t) (h : host_t) : host_t :=
  with_watches (delete pin) h.

(** [i2c_init] registers the device and answers its handle. *)
Definition i2c_init (config : i2c_config_t) (h : host_t) : Z * host_t :=
  (Z.of_nat (length (i2c_devices h)),
   Host (pin_modes h) (pin_watches h) (pin_levels h)
        (i2c_devices h ++ [config]) (stdout h)).

(** The simulator moves a pin to a new level (the event that precedes a
    pin-change callback). *)
Definition set_level (pin : pin_t) (value : bool) (h : host_t) : host_t :=
  Host (pin_modes h) (pin_watches h)
       (fun q => if decide (q = pin) then value else pin_levels h q)
       (i2c_devices h) (stdout h).

End Host.

Import Host.

(** ** The chip state structure *)

Record chip_state_t := Chip {
  address : Z;
  addressBits : list pin_t;
  nINT : pin_t;
  io : list pin_t;
  inputMask : Z;
  inputValue : Z;
  lastReadValue : Z;
  i2c_dev : Z;
  i2c_config : i2c_config_t;
  i2c_portcount : Z;
  io_watch_config : pin_watch_config_t
}.

Definition set_address (v : Z) (c : chip_state_t) : chip_state_t :=
  Chip v (addressBits c) (nINT c) (io c) (inputMask c) (inputValue c)
       (lastReadValue c) (i2c_dev c) (i2c_config c) (i2c_portcount c)
       (io_watch_config c).

Definition set_addressBits (v : list pin_t) (c : chip_state_t) : chip_state_t :=
  Chip (address c) v (nINT c) (io c) (inputMask c) (inputValue c)
       (lastReadValue c) (i2c_dev c) (i2c_config c) (i2c_portcount c)
       (io_watch_config c).

Definition set_nINT (v : pin_t) (c : chip_state_t) : chip_state_t :=
  Chip (address c) (addressBits c) v (io c) (inputMask c) (inputValue c)
       (lastReadValue c) (i2c_dev c) (i2c_config c) (i2c_portcount c)
       (io_watch_config c).

Definition set_io (v : list pin_t) (c : chip_state_t) : chip_state_t :=
  Chip (address c) (addressBits c) (nINT c) v (inputMask c) (inputValue c)
       (lastReadValue c) (i2c_dev c) (i2c_config c) (i2c_portcount c)
       (io_watch_config c).

Definition set_inputMask (v : Z) (c : chip_state_t) : chip_state_t :=
  Chip (address c) (addressBits c) (nINT c) (io c) v (inputValue c)
       (lastReadValue c) (i2c_dev c) (i2c_config c) (i2c_portcount c)
       (io_watch_config c).

Definition set_inputValue (v : Z) (c : chip_state_t) : chip_state_t :=
  Chip (address c) (addressBits c) (nINT c) (io c) (inputMask c) v
       (lastReadValue c) (i2c_dev c) (i2c_config c) (i2c_portcount c)
       (io_watch_config c).

Definition set_lastReadValue (v : Z) (c : chip_state_t) : chip_state_t :=
  Chip (address c) (addressBits c) (nINT c) (io c) (inputMask c) (inputValue c)
       v (i2c_dev c) (i2c_config c) (i2c_portcount c) (io_watch_config c).

Definition set_i2c_dev (v : Z) (c : chip_state_t) : chip_state_t :=
  Chip (address c) (addressBits c) (nINT c) (io c) (inputMask c) (inputValue c)
       (lastReadValue c) v (i2c_config c) (i2c_portcount c)
       (io_watch_config c).

Definition set_i2c_config (v : i2c_config_t) (c : chip_state_t) : chip_state_t :=
  Chip (address c) (addressBits c) (nINT c) (io c) (inputMask c) (inputValue c)
       (lastReadValue c) (i2c_dev c) v (i2c_portcount c) (io_watch_config c).

Definition set_i2c_portcount (v : Z) (c : chip_state_t) : chip_state_t :=
  Chip (address c) (addressBits c) (nINT c) (io c) (inputMask c) (inputValue c)
       (lastReadValue c) (i2c_dev c) (i2c_config c) v (io_watch_config c).

Definition set_io_watch_config (v : pin_watch_config_t) (c : chip_state_t)
    : chip_state_t :=
  Chip (address c) (addressBits c) (nINT c) (io c) (inputMask c) (inputValue c)
       (lastReadValue c) (i2c_dev c) (i2c_config c) (i2c_portcount c) v.

(** ** C idioms *)

(** [a[i]] on an array of the declared length; out of bounds is undefined. *)
Definition array_get {A} (a : list A) (i : Z) : option A :=
  if decide (0 <= i) then a !! Z.to_nat i else None.

(** [a[i] = x]. *)
Definition array_set {A} (a : list A) (i : Z) (x : A) : option (list A) :=
  if decide (0 <= i < Z.of_nat (length a))
  then Some (<[Z.to_nat i := x]> a) else None.

(** [for (uint8_t i = lo; i < lo + n; i++) body], threading the state. *)
Fixpoint for_loop {S} (n : nat) (i : Z) (body : Z -> S -> option S) (s : S)
    : option S :=
  match n with
  | O => Some s
  | S n' => s' ← body i s; for_loop n' (i + 1) body s'
  end.

(** The C truth value of an integer. *)
Definition truthy (x : Z) : bool := negb (x =? 0).

(** ** Interrupt flag control (inverted logic, open drain) *)

Definition interruptFlagOff (c : chip_state_t) (h : host_t) : host_t :=
  pin_mode (nINT c) INPUT h.

Definition interruptFlagOn (c : chip_state_t) (h : host_t) : host_t :=
  printf PrintIntFlagSet (pin_mode (nINT c) OUTPUT_LOW h).

(** ** Two-byte transaction framing *)

Definition incrementPortCount (c : chip_state_t) : chip_state_t :=
  if truthy (i2c_portcount c)
  then set_i2c_portcount 0 c
  else set_i2c_portcount 1 c.

(** ** I2C callbacks *)

Definition on_i2c_connect (c : chip_state_t) (h : host_t) (addr : Z)
    (is_read : bool) : chip_state_t * host_t * bool :=
  let h := if negb (addr =? address c)
           then printf (PrintAddrMismatch addr (address c)) h else h in
  let c := set_i2c_portcount 0 c in
  if is_read then
    let h := printf PrintReadResetInt h in
    let c := set_lastReadValue (inputValue c) c in
    let h := interruptFlagOff c h in
    (c, h, true)
  else (c, h, true).

Definition on_i2c_read (c : chip_state_t) : option (chip_state_t * Z) :=
  let count := i2c_portcount c * 8 in
  if decide (count < 32) then
    let retVal := u8 (Z.land (Z.shiftr (inputValue c) count) 0xff) in
    let c := incrementPortCount c in
    Some (c, retVal)
  else None.

(** The body of the loop of [on_i2c_write] for bit [i] of [data]. *)
Definition write_bit (data : Z) (i : Z) (s : chip_state_t * host_t)
    : option (chip_state_t * host_t) :=
  let '(c, h) := s in
  let bitIdx := u8 (i + i2c_portcount c * 8) in
  targetPin ← array_get (io c) bitIdx;
  let h := pin_watch_stop targetPin h in
  if truthy (Z.land data (Z.shiftl 1 i)) then
    let c := set_inputMask (u16 (Z.lor (inputMask c) (Z.shiftl 1 bitIdx))) c in
    let h := pin_mode targetPin INPUT_PULLUP h in
    let h := snd (pin_watch targetPin (io_watch_config c) h) in
    Some (c, h)
  else
    let h := pin_mode targetPin OUTPUT_LOW h in
    Some (c, h).

Definition on_i2c_write (c : chip_state_t) (h : host_t) (data : Z)
    : option (chip_state_t * host_t * bool) :=
  let c := if negb (truthy (i2c_portcount c)) then set_inputMask 0 c else c in
  '(c, h) ← for_loop 8 0 (write_bit data) (c, h);
  let h := if truthy (i2c_portcount c)
           then printf (PrintInputMask (inputMask c)) h else h in
  let c := incrementPortCount c in
  Some (c, h, true).

Definition on_i2c_disconnect (c : chip_state_t) : chip_state_t := c.

(** ** I2C address management *)

Definition address_bit (c : chip_state_t) (h : host_t) (i : Z) (lsbits : Z)
    : option Z :=
  pin ← array_get (addressBits c) i;
  if pin_read pin h then Some (u8 (Z.lor lsbits (Z.shiftl 1 i)))
  else Some lsbits.

Definition read_address (c : chip_state_t) (h : host_t) : option (Z * host_t) :=
  let configuredAddress := I2C_BASE_ADDRESS in
  lsbits ← for_loop (Z.to_nat NUM_ADDR_BITS) 0 (address_bit c h) 0;
  let configuredAddress := u8 (Z.lor configuredAddress lsbits) in
  let h := printf (PrintAddress lsbits configuredAddress) h in
  Some (configuredAddress, h).

Definition chip_addr_change (c : chip_state_t) (h : host_t) (pin : pin_t)
    (value : Z) : option (chip_state_t * host_t) :=
  '(a, h) ← read_address c h;
  Some (set_address a c, h).

(** ** Reading the combined input pins *)

Definition input_bit (c : chip_state_t) (h : host_t) (i : Z) (inputsValue : Z)
    : option Z :=
  if truthy (Z.land (inputMask c) (Z.shiftl 1 i)) then
    pin ← array_get (io c) i;
    if pin_read pin h then Some (u16 (Z.lor inputsValue (Z.shiftl 1 i)))
    else Some inputsValue
  else Some inputsValue.

Definition readInputsValue (c : chip_state_t) (h : host_t) : option Z :=
  for_loop (Z.to_nat NUM_GPIO) 0 (input_bit c h) 0.

Definition chip_input_io_change (c : chip_state_t) (h : host_t) (pin : pin_t)
    (value : Z) : option (chip_state_t * host_t) :=
  v ← readInputsValue c h;
  let c := set_inputValue v c in
  let h := if negb (inputValue c =? lastReadValue c)
           then interruptFlagOn c h else interruptFlagOff c h in
  let h := printf (PrintIoChanged (lastReadValue c) (inputValue c)) h in
  Some (c, h).

(** ** Initialisation *)

Definition initialize_state (c : chip_state_t) (h : host_t)
    : chip_state_t * host_t :=
  let c := set_address I2C_BASE_ADDRESS c in
  let c := set_inputMask 0xffff c in
  let c := set_inputValue 0xffff c in
  let c := set_i2c_portcount 0 c in
  let c := set_io_watch_config (WatchConfig BOTH cb_chip_input_io_change) c in
  let '(pscl, h) := pin_init "SCL" INPUT_PULLUP h in
  let '(psda, h) := pin_init "SDA" INPUT_PULLUP h in
  let c := set_i2c_config
             (I2cConfig (cfg_address (i2c_config c)) pscl psda
                        cb_on_i2c_connect cb_on_i2c_read cb_on_i2c_write
                        cb_on_i2c_disconnect) c in
  (c, h).

Definition addrPinNames : list string := ["A0"; "A1"; "A2"].

Definition ioPinNames : list string :=
  ["P00"; "P01"; "P02"; "P03"; "P04"; "P05"; "P06"; "P07";
   "P10"; "P11"; "P12"; "P13"; "P14"; "P15"; "P16"; "P17"].

Definition init_addr_pin (i : Z) (s : chip_state_t * host_t)
    : option (chip_state_t * host_t) :=
  let '(c, h) := s in
  name ← array_get addrPinNames i;
  let '(p, h) := pin_init name INPUT h in
  bits ← array_set (addressBits c) i p;
  let c := set_addressBits bits c in
  p' ← array_get (addressBits c) i;
  let h := snd (pin_watch p' (WatchConfig BOTH cb_chip_addr_change) h) in
  Some (c, h).

Definition init_io_pin (i : Z) (s : chip_state_t * host_t)
    : option (chip_state_t * host_t) :=
  let '(c, h) := s in
  name ← array_get ioPinNames i;
  let '(p, h) := pin_init name INPUT_PULLUP h in
  ios ← array_set (io c) i p;
  let c := set_io ios c in
  p' ← array_get (io c) i;
  let h := snd (pin_watch p' (io_watch_config c) h) in
  Some (c, h).

(** [chip_init]; [mem] is the block [malloc] returned, whose contents are
    whatever the memory held (the allocation is assumed to succeed, the
    source does not test it). *)
Definition chip_init (mem : chip_state_t) (h : host_t)
    : option (chip_state_t * host_t) :=
  let '(c, h) := initialize_state mem h in
  let '(p, h) := pin_init "nINT" INPUT h in
  let c := set_nINT p c in
  '(c, h) ← for_loop (Z.to_nat NUM_ADDR_BITS) 0 init_addr_pin (c, h);
  '(c, h) ← for_loop (Z.to_nat NUM_GPIO) 0 init_io_pin (c, h);
  let c := set_inputMask 0xffff c in
  '(a, h) ← read_address c h;
  let c := set_address a c in
  let c := set_i2c_config
             (I2cConfig (address c) (scl (i2c_config c)) (sda (i2c_config c))
                        (connect (i2c_config c)) (read (i2c_config c))
                        (write (i2c_config c)) (disconnect (i2c_config c))) c in
  let '(dev, h) := i2c_init (i2c_config c) h in
  let c := set_i2c_dev dev c in
  let h := printf (PrintI2cInitialized (address c)) h in
  let h := interruptFlagOff c h in
  Some (c, h).


(** ** The chip as a reactive machine

    The simulator drives the chip through six entry points.  A pin-change
    callback is preceded by the level change that triggers it. *)

Inductive event_t :=
| EvConnect (addr : Z) (is_read : bool)
| EvRead
| EvWrite (data : Z)
| EvDisconnect
| EvAddrChange (pin : pin_t) (value : bool)
| EvIoChange (pin : pin_t) (value : bool).

Inductive result_t := Ack (b : bool) | Byte (v : Z) | Void.

Definition dispatch (e : event_t) (c : chip_state_t) (h : host_t)
    : option (chip_state_t * host_t * result_t) :=
  match e with
  | EvConnect addr is_read =>
      let '(c, h, b) := on_i2c_connect c h addr is_read in Some (c, h, Ack b)
  | EvRead => '(c, v) ← on_i2c_read c; Some (c, h, Byte v)
  | EvWrite data => '(c, h, b) ← on_i2c_write c h data; Some (c, h, Ack b)
  | EvDisconnect => Some (on_i2c_disconnect c, h, Void)
  | EvAddrChange pin value =>
      '(c, h) ← chip_addr_change c (set_level pin value h) pin (Z.b2z value);
      Some (c, h, Void)
  | EvIoChange pin value =>
      '(c, h) ← chip_input_io_change c (set_level pin value h) pin
                  (Z.b2z value);
      Some (c, h, Void)
  end.

Fixpoint run (es : list event_t) (c : chip_state_t) (h : host_t)
    : option (chip_state_t * host_t) :=
  match es with
  | [] => Some (c, h)
  | e :: es' => '(c, h, _) ← dispatch e c h; run es' c h
  end.

(** The bytes the master receives from [n] successive reads. *)
Fixpoint read_bytes (n : nat) (c : chip_state_t)
    : option (chip_state_t * list Z) :=
  match n with
  | O => Some (c, [])
  | S n' => '(c, v) ← on_i2c_read c; '(c, vs) ← read_bytes n' c; Some (c, v :: vs)
  end.

(** Any event but a read-type connect. *)
Definition is_read_connect (e : event_t) : bool :=
  match e with EvConnect _ true => true | _ => false end.

Definition is_io_change (e : event_t) : bool :=
  match e with EvIoChange _ _ => true | _ => false end.

(** ** State invariant

    The arrays have their declared lengths, the byte index is 0 or 1, and the
    sixteen I/O handles are pairwise distinct and distinct from the interrupt
    pin. *)

Record chip_ok (c : chip_state_t) : Prop := ChipOk {
  ok_io_length : length (io c) = 16%nat;
  ok_addr_length : length (addressBits c) = 3%nat;
  ok_portcount : i2c_portcount c = 0 \/ i2c_portcount c = 1;
  ok_io_nodup : NoDup (io c);
  ok_nINT_fresh : nINT c ∉ io c
}.

(** Sizes of the arrays of a freshly allocated block. *)
Definition sizes_ok (c : chip_state_t) : Prop :=
  length (io c) = 16%nat /\ length (addressBits c) = 3%nat.

(** Line [i] is a monitored input: pulled up, with the I/O watch on it. *)
Definition monitored (c : chip_state_t) (h : host_t) (i : Z) : Prop :=
  match array_get (io c) i with
  | Some p => pin_modes h !! p = Some INPUT_PULLUP /\
              pin_watches h !! p = Some (io_watch_config c)
  | None => False
  end.

(** Line [i] is an output held low, with no watch on it. *)
Definition driven_low (c : chip_state_t) (h : host_t) (i : Z) : Prop :=
  match array_get (io c) i with
  | Some p => pin_modes h !! p = Some OUTPUT_LOW /\
              pin_watches h !! p = None
  | None => False
  end.

(** The level the simulator reports for line [i]. *)
Definition line_level (c : chip_state_t) (h : host_t) (i : Z) : bool :=
  match array_get (io c) i with
  | Some p => pin_read p h
  | None => false
  end.

(** The interrupt line: asserted is driven low, released is floating. *)
Definition int_asserted (c : chip_state_t) (h : host_t) : Prop :=
  pin_modes h !! nINT c = Some OUTPUT_LOW.

Definition int_released (c : chip_state_t) (h : host_t) : Prop :=
  pin_modes h !! nINT c = Some INPUT.

(** ** Concrete states used in the examples *)

(** A block of memory with arbitrary contents. *)
Definition stale_config : i2c_config_t :=
  I2cConfig 0 "" "" cb_on_i2c_connect cb_on_i2c_connect cb_on_i2c_connect
            cb_on_i2c_connect.

Definition stale_mem (last : Z) : chip_state_t :=
  Chip 0 (replicate 3 "") "" (replicate 16 "") 0 0 last 0 stale_config 7
       (WatchConfig RISING cb_on_i2c_read).

(** A simulator in which every pin in [high] reads high. *)
Definition sim (high : list pin_t) : host_t :=
  Host ∅ ∅ (fun p => bool_decide (p ∈ high)) [] [].

(** The chip after start-up with all I/O pins high and A1 strapped high. *)
Definition booted : option (chip_state_t * host_t) :=
  chip_init (stale_mem 0xffff) (sim ("A1" :: ioPinNames)).

Definition booted_state : chip_state_t * host_t :=
  default (stale_mem 0xffff, sim []) booted.

Definition booted_chip : chip_state_t := fst booted_state.
Definition booted_host : host_t := snd booted_state.

(** The state a sequence of events leads to. *)
Definition after (es : list event_t) (s : chip_state_t * host_t)
    : chip_state_t * host_t :=
  default s (run es (fst s) (snd s)).

(** A write transaction of which only the first byte has arrived. *)
Definition first_byte_state : chip_state_t * host_t :=
  after [EvConnect 0x22 false; EvWrite 0xff] booted_state.

(** Line 0 configured as the only input, by the write [0x01, 0x00]. *)
Definition one_input_state : chip_state_t * host_t :=
  after [EvConnect 0x22 false; EvWrite 0x01; EvWrite 0x00] booted_state.

(** The same state after pin P00 has fallen. *)
Definition one_input_after_edge : chip_state_t * host_t :=
  after [EvIoChange "P00" false] one_input_state.

(** ** Auxiliary definitions used in the statements *)

(** What a command bit asks of its line. *)
Definition mode_of_bit (b : bool) : pin_mode_t :=
  if b then INPUT_PULLUP else OUTPUT_LOW.

Definition watch_of_bit (c : chip_state_t) (b : bool)
    : option pin_watch_config_t :=
  if b then Some (io_watch_config c) else None.

(** The mask a write starts from: cleared on the first byte of a pair. *)
Definition mask_before_write (c : chip_state_t) : Z :=
  if i2c_portcount c =? 0 then 0 else inputMask c.

(** The address for given levels of A0, A1 and A2. *)
Definition address_of_levels (l0 l1 l2 : bool) : Z :=
  Z.lor I2C_BASE_ADDRESS (Z.b2z l0 + 2 * Z.b2z l1 + 4 * Z.b2z l2).

(** The state [chip_init] leaves in the block, as a function of what the
    block held ([mem]) and of the levels of the three address pins. *)
Definition initial_chip (mem : chip_state_t) (h : host_t) : chip_state_t :=
  let a := address_of_levels (pin_levels h "A0") (pin_levels h "A1")
                             (pin_levels h "A2") in
  Chip a addrPinNames "nINT" ioPinNames 0xffff 0xffff (lastReadValue mem)
       (Z.of_nat (length (i2c_devices h)))
       (I2cConfig a "SCL" "SDA" cb_on_i2c_connect cb_on_i2c_read
                  cb_on_i2c_write cb_on_i2c_disconnect)
       0 (WatchConfig BOTH cb_chip_input_io_change).

(** Line [i] belongs to the port the next byte addresses. *)
Definition in_port (c : chip_state_t) (i : Z) : Prop :=
  i2c_portcount c * 8 <= i < i2c_portcount c * 8 + 8.

(** A sequence of edges on monitored lines, as events. *)
Definition io_edges (es : list (pin_t * bool)) : list event_t :=
  map (fun e => EvIoChange (fst e) (snd e)) es.

(** Mask and pin modes agree on every line. *)
Definition mask_matches_modes (c : chip_state_t) (h : host_t) : Prop :=
  forall i, 0 <= i < 16 ->
    (Z.testbit (inputMask c) i = true <-> monitored c h i) /\
    (Z.testbit (inputMask c) i = false <-> driven_low c h i).

(** ** Further definitions used in the statements *)

(** The 16-bit word made of two command bytes, the first one low. *)
Definition mask_word (d0 d1 : Z) : Z := Z.lor (u8 d0) (Z.shiftl (u8 d1) 8).

(** Byte [idx] of a value: 0 is the low byte (port 0), 1 the high byte. *)
Definition port_byte (v idx : Z) : Z := (v / 256 ^ idx) mod 256.

Definition is_write (e : event_t) : bool :=
  match e with EvWrite _ => true | _ => false end.

Definition is_addr_change (e : event_t) : bool :=
  match e with EvAddrChange _ _ => true | _ => false end.

(** What [pin_init] followed by [pin_watch] on the new pin leaves in the
    simulator. *)
Definition create_watched (config : pin_watch_config_t) (mode : pin_mode_t)
    (h : host_t) (name : string) : host_t :=
  snd (pin_watch name config (snd (pin_init name mode h))).

(** The simulator as [chip_init] leaves it, [h0] being the simulator it
    started from. *)
Definition initial_host (mem : chip_state_t) (h0 : host_t) : host_t :=
  let c := initial_chip mem h0 in
  let h := pin_mode "SCL" INPUT_PULLUP h0 in
  let h := pin_mode "SDA" INPUT_PULLUP h in
  let h := pin_mode "nINT" INPUT h in
  let h := foldl (create_watched (WatchConfig BOTH cb_chip_addr_change) INPUT)
                 h addrPinNames in
  let h := foldl (create_watched (io_watch_config c) INPUT_PULLUP)
                 h ioPinNames in
  let h := printf (PrintAddress
                     (Z.b2z (pin_levels h0 "A0")
                      + 2 * Z.b2z (pin_levels h0 "A1")
                      + 4 * Z.b2z (pin_levels h0 "A2"))
                     (address c)) h in
  let h := snd (i2c_init (i2c_config c) h) in
  let h := printf (PrintI2cInitialized (address c)) h in
  interruptFlagOff c h.

(** The calls that move the byte index. *)
Definition moves_index (e : event_t) : bool :=
  match e with EvConnect _ _ | EvRead | EvWrite _ => true | _ => false end.


(** ** Bit-level facts *)

Lemma truthy_land_bit (a i : Z) :
  0 <= i -> truthy (Z.land a (Z.shiftl 1 i)) = Z.testbit a i.
Proof.
  intros Hi. unfold truthy. rewrite Z.shiftl_1_l.
  destruct (Z.testbit a i) eqn:Hb.
  - apply negb_true_iff, Z.eqb_neq. intros H0.
    assert (Ht : Z.testbit (Z.land a (2 ^ i)) i = true).
    { rewrite Z.land_spec, Hb, Z.pow2_bits_true; auto. }
    rewrite H0, Z.bits_0 in Ht. discriminate.
  - apply negb_false_iff, Z.eqb_eq. apply Z.bits_inj'. intros j Hj.
    rewrite Z.land_spec, Z.bits_0, Z.pow2_bits_eqb by lia.
    destruct (Z.eqb_spec i j); subst; rewrite ?Hb, ?andb_false_r; auto.
Qed.

Lemma u16_testbit (x j : Z) :
  0 <= j < 16 -> Z.testbit (u16 x) j = Z.testbit x j.
Proof.
  intros Hj. unfold u16. change 65536 with (2 ^ 16).
  apply Z.mod_pow2_bits_low. lia.
Qed.

Lemma u16_testbit_high (x j : Z) :
  16 <= j -> Z.testbit (u16 x) j = false.
Proof.
  intros Hj. unfold u16. change 65536 with (2 ^ 16).
  apply Z.mod_pow2_bits_high. lia.
Qed.

Lemma testbit_or_bit (x i j : Z) :
  0 <= i -> 0 <= j ->
  Z.testbit (Z.lor x (Z.shiftl 1 i)) j = Z.testbit x j || bool_decide (j = i).
Proof.
  intros Hi Hj. rewrite Z.lor_spec, Z.shiftl_1_l, Z.pow2_bits_eqb by lia.
  f_equal. destruct (Z.eqb_spec i j); case_bool_decide; auto; lia.
Qed.

Lemma u8_small (x : Z) : 0 <= x < 256 -> u8 x = x.
Proof. intros H. unfold u8. apply Z.mod_small. lia. Qed.

(** ** Frame facts of the simulator operations *)

Lemma pin_watch_modes p cfg h :
  pin_modes (snd (pin_watch p cfg h)) = pin_modes h.
Proof. unfold pin_watch. destruct (pin_watches h !! p); reflexivity. Qed.

Lemma pin_watch_levels p cfg h :
  pin_levels (snd (pin_watch p cfg h)) = pin_levels h.
Proof. unfold pin_watch. destruct (pin_watches h !! p); reflexivity. Qed.

Lemma pin_watch_stdout p cfg h :
  stdout (snd (pin_watch p cfg h)) = stdout h.
Proof. unfold pin_watch. destruct (pin_watches h !! p); reflexivity. Qed.

Lemma pin_watch_devices p cfg h :
  i2c_devices (snd (pin_watch p cfg h)) = i2c_devices h.
Proof. unfold pin_watch. destruct (pin_watches h !! p); reflexivity. Qed.

Lemma pin_watch_after_stop p cfg m h :
  pin_watches (snd (pin_watch p cfg (pin_mode p m (pin_watch_stop p h))))
  = <[p := cfg]> (delete p (pin_watches h)).
Proof.
  unfold pin_watch. cbn. rewrite lookup_delete_eq. reflexivity.
Qed.

(** ** The write loop *)

Lemma array_get_Some {A} (a : list A) (i : Z) :
  0 <= i < Z.of_nat (length a) -> exists x, array_get a i = Some x.
Proof.
  intros Hi. unfold array_get. rewrite decide_True by lia.
  destruct (lookup_lt_is_Some_2 a (Z.to_nat i)) as [x Hx]; [lia|eauto].
Qed.

Lemma array_get_inj {A} (a : list A) (i j : Z) (x : A) :
  NoDup a -> array_get a i = Some x -> array_get a j = Some x -> i = j.
Proof.
  unfold array_get. intros Hnd Hi Hj.
  destruct (decide (0 <= i)); [|discriminate].
  destruct (decide (0 <= j)); [|discriminate].
  pose proof (NoDup_lookup a _ _ x Hnd Hi Hj). lia.
Qed.

Lemma array_get_elem_of {A} (a : list A) (i : Z) (x : A) :
  array_get a i = Some x -> x ∈ a.
Proof.
  unfold array_get. destruct (decide (0 <= i)); [|discriminate].
  apply list_elem_of_lookup_2.
Qed.

Section write_loop.
Variable data : Z.

Lemma write_bit_spec c h i p :
  0 <= i < 8 ->
  i2c_portcount c = 0 \/ i2c_portcount c = 1 ->
  array_get (io c) (i + i2c_portcount c * 8) = Some p ->
  exists m h',
    write_bit data i (c, h) = Some (set_inputMask m c, h') /\
    m = (if Z.testbit data i
         then u16 (Z.lor (inputMask c)
                         (Z.shiftl 1 (i + i2c_portcount c * 8)))
         else inputMask c) /\
    pin_modes h' = <[p := mode_of_bit (Z.testbit data i)]> (pin_modes h) /\
    pin_watches h' !! p = watch_of_bit c (Z.testbit data i) /\
    (forall q, q <> p -> pin_watches h' !! q = pin_watches h !! q) /\
    pin_levels h' = pin_levels h /\ stdout h' = stdout h /\
    i2c_devices h' = i2c_devices h.
Proof.
  intros Hi Hpc Hp. unfold write_bit.
  rewrite u8_small by lia. rewrite Hp. cbn [mbind option_bind].
  rewrite truthy_land_bit by lia.
  destruct (Z.testbit data i).
  - do 2 eexists. split; [reflexivity|]. split; [reflexivity|].
    rewrite pin_watch_modes, pin_watch_levels, pin_watch_stdout,
      pin_watch_devices.
    change (io_watch_config (set_inputMask _ c)) with (io_watch_config c).
    rewrite pin_watch_after_stop. cbn.
    repeat split; auto.
    + apply lookup_insert_eq.
    + intros q Hq. rewrite lookup_insert_ne, lookup_delete_ne; auto.
  - exists (inputMask c), (pin_mode p OUTPUT_LOW (pin_watch_stop p h)).
    split; [by destruct c|]. cbn. repeat split; auto.
    + apply lookup_delete_eq.
    + intros q Hq. rewrite lookup_delete_ne; auto.
Qed.

Lemma write_loop_spec n : forall i c h,
  length (io c) = 16%nat -> NoDup (io c) ->
  i2c_portcount c = 0 \/ i2c_portcount c = 1 ->
  0 <= i -> i + Z.of_nat n <= 8 ->
  exists m h',
    for_loop n i (write_bit data) (c, h) = Some (set_inputMask m c, h') /\
    (forall j, 0 <= j < 16 ->
       Z.testbit m j =
       Z.testbit (inputMask c) j ||
       (bool_decide (i <= j - i2c_portcount c * 8 < i + Z.of_nat n)
        && Z.testbit data (j - i2c_portcount c * 8))) /\
    (forall k p, i <= k < i + Z.of_nat n ->
       array_get (io c) (k + i2c_portcount c * 8) = Some p ->
       pin_modes h' !! p = Some (mode_of_bit (Z.testbit data k)) /\
       pin_watches h' !! p = watch_of_bit c (Z.testbit data k)) /\
    (forall p,
       (forall k, i <= k < i + Z.of_nat n ->
          array_get (io c) (k + i2c_portcount c * 8) <> Some p) ->
       pin_modes h' !! p = pin_modes h !! p /\
       pin_watches h' !! p = pin_watches h !! p) /\
    pin_levels h' = pin_levels h /\ stdout h' = stdout h /\
    i2c_devices h' = i2c_devices h.
Proof.
  induction n as [|n IH]; intros i c h Hlen Hnd Hpc Hi Hn.
  - exists (inputMask c), h. cbn [for_loop]. split; [by destruct c|].
    split.
    { intros j Hj. rewrite bool_decide_eq_false_2 by lia.
      by rewrite orb_false_r. }
    split; [intros; lia|]. repeat split; auto.
  - destruct (array_get_Some (io c) (i + i2c_portcount c * 8)) as [p Hp];
      [lia|].
    destruct (write_bit_spec c h i p) as
      (m1 & h1 & Hstep & Hm1 & Hmodes1 & Hwp1 & Hwq1 & Hl1 & Ho1 & Hd1);
      [lia|done|done|].
    destruct (IH (i + 1) (set_inputMask m1 c) h1) as
      (m & h' & Hloop & Hm & Hcfg & Hframe & Hl & Ho & Hd);
      [done|done|done|lia|lia|].
    cbn [io set_inputMask i2c_portcount inputMask] in Hloop, Hm, Hcfg, Hframe.
    exists m, h'. split.
    { cbn [for_loop]. rewrite Hstep. cbn [mbind option_bind]. exact Hloop. }
    split.
    { intros j Hj. rewrite (Hm j Hj).
      destruct (decide (j - i2c_portcount c * 8 = i)) as [Heq|Hne].
      - rewrite Heq, bool_decide_eq_false_2, bool_decide_eq_true_2 by lia.
        rewrite Hm1. destruct (Z.testbit data i) eqn:Hb.
        + rewrite u16_testbit, testbit_or_bit by lia.
          rewrite bool_decide_eq_true_2 by lia.
          by destruct (Z.testbit (inputMask c) j).
        + done.
      - assert (Z.testbit m1 j = Z.testbit (inputMask c) j) as ->.
        { rewrite Hm1. destruct (Z.testbit data i); [|done].
          rewrite u16_testbit, testbit_or_bit by lia.
          rewrite bool_decide_eq_false_2 by lia. by rewrite orb_false_r. }
        f_equal. f_equal. apply bool_decide_ext. lia. }
    split.
    { intros k q Hk Hq. destruct (decide (k = i)) as [->|Hne].
      - assert (q = p) as -> by congruence.
        destruct (Hframe p) as [Hfm Hfw].
        { intros k' Hk' Hk'p.
          pose proof (array_get_inj _ _ _ _ Hnd Hk'p Hp). lia. }
        rewrite Hfm, Hfw, Hmodes1, lookup_insert_eq. auto.
      - apply Hcfg; [lia|done]. }
    split.
    { intros q Hq. destruct (Hframe q) as [Hfm Hfw].
      { intros k Hk. apply Hq. lia. }
      assert (q <> p) as Hqp.
      { intros ->. apply (Hq i); [lia|done]. }
      rewrite Hfm, Hfw, Hmodes1, lookup_insert_ne, Hwq1; auto. }
    repeat split; congruence.
Qed.

End write_loop.

Lemma on_i2c_write_spec c h data :
  length (io c) = 16%nat -> NoDup (io c) ->
  i2c_portcount c = 0 \/ i2c_portcount c = 1 ->
  exists m h',
    on_i2c_write c h data
    = Some (set_i2c_portcount (1 - i2c_portcount c) (set_inputMask m c),
            h', true) /\
    (forall j, 0 <= j < 16 ->
       Z.testbit m j =
       Z.testbit (mask_before_write c) j ||
       (bool_decide (0 <= j - i2c_portcount c * 8 < 8)
        && Z.testbit data (j - i2c_portcount c * 8))) /\
    (forall k p, 0 <= k < 8 ->
       array_get (io c) (k + i2c_portcount c * 8) = Some p ->
       pin_modes h' !! p = Some (mode_of_bit (Z.testbit data k)) /\
       pin_watches h' !! p = watch_of_bit c (Z.testbit data k)) /\
    (forall p,
       (forall k, 0 <= k < 8 ->
          array_get (io c) (k + i2c_portcount c * 8) <> Some p) ->
       pin_modes h' !! p = pin_modes h !! p /\
       pin_watches h' !! p = pin_watches h !! p) /\
    pin_levels h' = pin_levels h /\
    i2c_devices h' = i2c_devices h /\
    stdout h' = stdout h ++
                (if i2c_portcount c =? 0 then [] else [PrintInputMask m]).
Proof.
  intros Hlen Hnd Hpc. unfold on_i2c_write, mask_before_write.
  destruct Hpc as [Hpc|Hpc].
  - destruct (write_loop_spec data 8 0 (set_inputMask 0 c) h) as
      (m & h' & Hloop & Hm & Hcfg & Hframe & Hl & Ho & Hd);
      [exact Hlen|exact Hnd|left; exact Hpc|lia|lia|].
    cbn [io set_inputMask i2c_portcount inputMask] in Hloop, Hm, Hcfg, Hframe.
    exists m, h'. rewrite Hpc in *. cbn [truthy Z.eqb negb].
    rewrite Hloop. cbn [mbind option_bind]. unfold incrementPortCount.
    cbn [set_inputMask i2c_portcount]. rewrite Hpc. cbn [truthy Z.eqb negb].
    split; [done|]. split; [exact Hm|]. split; [exact Hcfg|].
    split; [exact Hframe|]. split; [done|]. split; [done|].
    by rewrite Ho, app_nil_r.
  - destruct (write_loop_spec data 8 0 c h) as
      (m & h' & Hloop & Hm & Hcfg & Hframe & Hl & Ho & Hd);
      [exact Hlen|exact Hnd|right; exact Hpc|lia|lia|].
    exists m, (printf (PrintInputMask m) h'). rewrite Hpc in *.
    cbn [truthy Z.eqb negb].
    rewrite Hloop. cbn [mbind option_bind]. unfold incrementPortCount.
    cbn [set_inputMask i2c_portcount inputMask]. rewrite Hpc.
    cbn [truthy Z.eqb negb].
    split; [done|]. split; [exact Hm|]. split; [exact Hcfg|].
    split; [exact Hframe|]. split; [done|]. split; [done|].
    cbn. by rewrite Ho.
Qed.

(** ** The input scan *)

Lemma input_loop_spec c h n : forall i acc,
  length (io c) = 16%nat -> 0 <= i -> i + Z.of_nat n <= 16 ->
  (forall j, 16 <= j -> Z.testbit acc j = false) ->
  exists v,
    for_loop n i (input_bit c h) acc = Some v /\
    forall j, 0 <= j ->
      Z.testbit v j =
      Z.testbit acc j ||
      (bool_decide (i <= j < i + Z.of_nat n)
       && Z.testbit (inputMask c) j && line_level c h j).
Proof.
  induction n as [|n IH]; intros i acc Hlen Hi Hn Hacc.
  - exists acc. split; [done|]. intros j Hj.
    rewrite bool_decide_eq_false_2 by lia. by rewrite orb_false_r.
  - destruct (array_get_Some (io c) i) as [p Hp]; [lia|].
    assert (exists a1, input_bit c h i acc = Some a1 /\
              (forall j, 16 <= j -> Z.testbit a1 j = false) /\
              forall j, 0 <= j -> Z.testbit a1 j =
                Z.testbit acc j ||
                (bool_decide (j = i) && Z.testbit (inputMask c) j
                 && line_level c h j)) as (a1 & Hstep & Hhigh & Hbits).
    { unfold input_bit. rewrite truthy_land_bit by lia. unfold line_level.
      destruct (Z.testbit (inputMask c) i) eqn:Hm.
      - rewrite Hp. cbn [mbind option_bind].
        destruct (pin_read p h) eqn:Hr.
        + eexists. split; [reflexivity|]. split.
          * intros j Hj. by apply u16_testbit_high.
          * intros j Hj. destruct (decide (j < 16)).
            -- rewrite u16_testbit, testbit_or_bit by lia.
               case_bool_decide as Hji; [|by rewrite !orb_false_r].
               subst j. by rewrite Hm, Hp, Hr.
            -- rewrite u16_testbit_high, Hacc by lia.
               by rewrite bool_decide_eq_false_2 by lia.
        + exists acc. split; [done|]. split; [done|]. intros j Hj.
          case_bool_decide as Hji; [|by rewrite orb_false_r].
          subst j. by rewrite Hp, Hr, andb_false_r, orb_false_r.
      - exists acc. split; [done|]. split; [done|]. intros j Hj.
        case_bool_decide as Hji; [|by rewrite orb_false_r].
        subst j. by rewrite Hm, orb_false_r. }
    destruct (IH (i + 1) a1) as (v & Hloop & Hv); [done|lia|lia|done|].
    exists v. split.
    { cbn [for_loop]. rewrite Hstep. exact Hloop. }
    intros j Hj. rewrite Hv, Hbits by lia. rewrite <- orb_assoc. f_equal.
    destruct (decide (j = i)) as [->|Hne].
    + rewrite bool_decide_eq_true_2, bool_decide_eq_false_2,
        bool_decide_eq_true_2 by lia.
      by rewrite orb_false_r.
    + rewrite (bool_decide_eq_false_2 (j = i)) by lia. cbn [andb orb].
      do 2 f_equal. apply bool_decide_ext. lia.
Qed.

Lemma readInputsValue_spec c h :
  length (io c) = 16%nat ->
  exists v,
    readInputsValue c h = Some v /\
    forall j, 0 <= j ->
      Z.testbit v j =
      bool_decide (j < 16) && Z.testbit (inputMask c) j && line_level c h j.
Proof.
  intros Hlen. unfold readInputsValue.
  destruct (input_loop_spec c h (Z.to_nat NUM_GPIO) 0 0) as (v & Hloop & Hv);
    [done|lia|unfold NUM_GPIO; lia|intros; apply Z.bits_0|].
  exists v. split; [done|]. intros j Hj. rewrite Hv, Z.bits_0 by lia.
  cbn [orb]. do 2 f_equal. apply bool_decide_ext. unfold NUM_GPIO. lia.
Qed.

(** ** The address scan *)

Lemma read_address_spec c h :
  length (addressBits c) = 3%nat ->
  exists p0 p1 p2,
    addressBits c = [p0; p1; p2] /\
    read_address c h =
    Some (address_of_levels (pin_read p0 h) (pin_read p1 h) (pin_read p2 h),
          printf (PrintAddress
                    (Z.b2z (pin_read p0 h) + 2 * Z.b2z (pin_read p1 h)
                     + 4 * Z.b2z (pin_read p2 h))
                    (address_of_levels (pin_read p0 h) (pin_read p1 h)
                                       (pin_read p2 h))) h).
Proof.
  intros Hlen. destruct (addressBits c) as [|p0 [|p1 [|p2 [|? ?]]]] eqn:Hab;
    try discriminate.
  exists p0, p1, p2. split; [done|].
  unfold read_address, address_bit. rewrite Hab.
  change (Z.to_nat NUM_ADDR_BITS) with 3%nat. cbn [for_loop].
  change (array_get [p0; p1; p2] 0) with (Some p0).
  change (array_get [p0; p1; p2] (0 + 1)) with (Some p1).
  change (array_get [p0; p1; p2] (0 + 1 + 1)) with (Some p2).
  cbn [mbind option_bind].
  destruct (pin_read p0 h) eqn:H0; cbn [mbind option_bind];
    destruct (pin_read p1 h) eqn:H1; cbn [mbind option_bind];
    destruct (pin_read p2 h) eqn:H2; reflexivity.
Qed.

(** ** Every callback runs to completion and keeps the invariant *)

Lemma incrementPortCount_range c :
  i2c_portcount (incrementPortCount c) = 0 \/
  i2c_portcount (incrementPortCount c) = 1.
Proof.
  unfold incrementPortCount. destruct (truthy (i2c_portcount c)); cbn; auto.
Qed.

Lemma incrementPortCount_toggle c :
  i2c_portcount c = 0 \/ i2c_portcount c = 1 ->
  incrementPortCount c = set_i2c_portcount (1 - i2c_portcount c) c.
Proof.
  unfold incrementPortCount. intros [H|H]; rewrite H; reflexivity.
Qed.

Lemma on_i2c_read_spec c :
  i2c_portcount c = 0 \/ i2c_portcount c = 1 ->
  on_i2c_read c =
  Some (set_i2c_portcount (1 - i2c_portcount c) c,
        (inputValue c / 256 ^ i2c_portcount c) mod 256).
Proof.
  intros Hpc. unfold on_i2c_read.
  rewrite decide_True by lia. rewrite incrementPortCount_toggle by done.
  do 2 f_equal. unfold u8.
  change 255 with (Z.ones 8). rewrite Z.land_ones by lia.
  rewrite Z.shiftr_div_pow2 by lia. change (2 ^ 8) with 256.
  rewrite Z.mod_mod by lia.
  destruct Hpc as [-> | ->]; reflexivity.
Qed.

Lemma dispatch_spec e c h :
  chip_ok c ->
  exists c' h' r,
    dispatch e c h = Some (c', h', r) /\
    chip_ok c' /\
    io c' = io c /\ nINT c' = nINT c /\ addressBits c' = addressBits c /\
    (is_read_connect e = false -> lastReadValue c' = lastReadValue c) /\
    (is_read_connect e = false -> is_io_change e = false ->
     pin_modes h' !! nINT c' = pin_modes h !! nINT c).
Proof.
  intros [Hio Hab Hpc Hnd Hfresh].
  destruct e as [addr [|]| |data| |pin value|pin value]; cbn [dispatch].
  - do 3 eexists. split; [reflexivity|]. split; [constructor; cbn; auto|].
    repeat split; intros; discriminate.
  - do 3 eexists. split; [reflexivity|]. split; [constructor; cbn; auto|].
    repeat split.
    intros _ _. unfold on_i2c_connect.
    destruct (negb (addr =? address c)); reflexivity.
  - rewrite on_i2c_read_spec by done. cbn [mbind option_bind].
    do 3 eexists. split; [reflexivity|]. split; [constructor; cbn; auto; lia|].
    repeat split.
  - destruct (on_i2c_write_spec c h data Hio Hnd Hpc) as
      (m & h' & Hw & _ & _ & Hframe & _).
    rewrite Hw. cbn [mbind option_bind].
    do 3 eexists. split; [reflexivity|]. split; [constructor; cbn; auto; lia|].
    repeat split. intros _ _. cbn [nINT set_i2c_portcount set_inputMask].
    apply Hframe. intros k Hk Hget. apply Hfresh.
    by apply array_get_elem_of in Hget.
  - do 3 eexists. split; [reflexivity|]. split; [by constructor|].
    repeat split.
  - unfold chip_addr_change.
    destruct (read_address_spec c (set_level pin value h) Hab) as
      (p0 & p1 & p2 & _ & Hra).
    rewrite Hra. cbn [mbind option_bind].
    do 3 eexists. split; [reflexivity|]. split; [by constructor|].
    repeat split.
  - unfold chip_input_io_change.
    destruct (readInputsValue_spec c (set_level pin value h) Hio) as
      (v & Hv & _).
    rewrite Hv. cbn [mbind option_bind].
    do 3 eexists. split; [reflexivity|]. split; [by constructor|].
    repeat split. intros _ ?. discriminate.
Qed.

Lemma run_spec es : forall c h,
  chip_ok c ->
  exists c' h',
    run es c h = Some (c', h') /\ chip_ok c' /\
    io c' = io c /\ nINT c' = nINT c /\
    (forallb (fun e => negb (is_read_connect e)) es = true ->
     lastReadValue c' = lastReadValue c).
Proof.
  induction es as [|e es IH]; intros c h Hok.
  - exists c, h. split_and!; done.
  - destruct (dispatch_spec e c h Hok) as
      (c1 & h1 & r & Hd & Hok1 & Hio1 & Hn1 & _ & Hl1 & _).
    destruct (IH c1 h1 Hok1) as (c' & h' & Hr & Hok' & Hio' & Hn' & Hl').
    exists c', h'. cbn [run]. rewrite Hd. cbn [mbind option_bind].
    split; [done|]. split; [done|].
    split; [congruence|]. split; [congruence|].
    cbn [forallb]. intros [He Hes]%andb_true_iff.
    rewrite Hl' by done. apply Hl1. by apply negb_true_iff.
Qed.

(** ** Start-up *)

Lemma bind_Some {A B} (f : A -> option B) (x : A) : Some x ≫= f = f x.
Proof. reflexivity. Qed.

Lemma init_addr_loop c h :
  length (addressBits c) = 3%nat ->
  exists h',
    for_loop 3 0 init_addr_pin (c, h) = Some (set_addressBits addrPinNames c, h')
    /\ pin_levels h' = pin_levels h /\ i2c_devices h' = i2c_devices h
    /\ stdout h' = stdout h.
Proof.
  intros Hlen. destruct c as [a ab n i m v l d cfg pc w]. cbn in Hlen.
  destruct ab as [|a0 [|a1 [|a2 [|? ?]]]]; try discriminate.
  eexists. split.
  { cbn [for_loop]. unfold init_addr_pin.
    cbn - [pin_watch pin_mode with_modes]. reflexivity. }
  repeat (rewrite ?pin_watch_levels, ?pin_watch_devices, ?pin_watch_stdout;
          cbn [with_modes pin_levels i2c_devices stdout]).
  done.
Qed.

Lemma init_io_pin_spec c h i :
  length (io c) = 16%nat -> 0 <= i < 16 ->
  exists name h',
    array_get ioPinNames i = Some name /\
    init_io_pin i (c, h) = Some (set_io (<[Z.to_nat i := name]> (io c)) c, h')
    /\ pin_levels h' = pin_levels h /\ i2c_devices h' = i2c_devices h
    /\ stdout h' = stdout h.
Proof.
  intros Hlen Hi.
  destruct (array_get_Some ioPinNames i) as [name Hname]; [cbn; lia|].
  exists name. eexists. split; [done|]. unfold init_io_pin.
  rewrite Hname. cbn [mbind option_bind]. unfold pin_init, array_set.
  rewrite decide_True by lia. cbn [mbind option_bind io set_io].
  unfold array_get at 1. rewrite decide_True by lia.
  rewrite list_lookup_insert_eq by lia. cbn [mbind option_bind].
  split; [reflexivity|].
  rewrite pin_watch_levels, pin_watch_devices, pin_watch_stdout. done.
Qed.

Lemma init_io_loop_gen n : forall i c h,
  length (io c) = 16%nat -> 0 <= i -> i + Z.of_nat n <= 16 ->
  exists l h',
    for_loop n i init_io_pin (c, h) = Some (set_io l c, h') /\
    length l = 16%nat /\
    (forall k : nat, i <= Z.of_nat k < i + Z.of_nat n ->
       l !! k = ioPinNames !! k) /\
    (forall k : nat, ~ (i <= Z.of_nat k < i + Z.of_nat n) ->
       l !! k = io c !! k) /\
    pin_levels h' = pin_levels h /\ i2c_devices h' = i2c_devices h /\
    stdout h' = stdout h.
Proof.
  induction n as [|n IH]; intros i c h Hlen Hi Hn.
  - exists (io c), h. cbn [for_loop]. split; [by destruct c|].
    split; [done|]. split; [intros; lia|]. done.
  - destruct (init_io_pin_spec c h i Hlen) as
      (name & h1 & Hname & Hstep & Hl1 & Hd1 & Ho1); [lia|].
    destruct (IH (i + 1) (set_io (<[Z.to_nat i := name]> (io c)) c) h1) as
      (l & h' & Hloop & Hlen' & Hnew & Hold & Hl & Hd & Ho);
      [cbn [io set_io]; by rewrite length_insert|lia|lia|].
    cbn [io set_io] in Hloop, Hold.
    exists l, h'. split.
    { cbn [for_loop]. rewrite Hstep. exact Hloop. }
    split; [done|]. split.
    { intros k Hk. destruct (decide (Z.of_nat k = i)) as [Hki|Hki].
      - rewrite Hold by lia. unfold array_get in Hname.
        rewrite decide_True in Hname by lia.
        replace (Z.to_nat i) with k in * by lia.
        rewrite list_lookup_insert_eq by lia. done.
      - apply Hnew. lia. }
    split.
    { intros k Hk. rewrite Hold by lia.
      apply list_lookup_insert_ne. lia. }
    split_and!; congruence.
Qed.

Lemma init_io_loop c h :
  length (io c) = 16%nat ->
  exists h',
    for_loop 16 0 init_io_pin (c, h) = Some (set_io ioPinNames c, h')
    /\ pin_levels h' = pin_levels h /\ i2c_devices h' = i2c_devices h
    /\ stdout h' = stdout h.
Proof.
  intros Hlen.
  destruct (init_io_loop_gen 16 0 c h Hlen) as
    (l & h' & Hloop & Hlen' & Hnew & _ & Hframe); [lia|lia|].
  assert (l = ioPinNames) as ->.
  { apply list_eq. intros k. destruct (decide (k < 16)%nat).
    - apply Hnew. lia.
    - rewrite !lookup_ge_None_2; [done|cbn; lia|lia]. }
  by exists h'.
Qed.

Lemma chip_init_spec mem h :
  sizes_ok mem ->
  exists h',
    chip_init mem h = Some (initial_chip mem h, h') /\
    pin_modes h' !! "nINT" = Some INPUT /\
    pin_levels h' = pin_levels h.
Proof.
  intros [Hio Hab]. unfold chip_init, initialize_state.
  unfold pin_init at 1 2 3.
  change (Z.to_nat NUM_ADDR_BITS) with 3%nat.
  change (Z.to_nat NUM_GPIO) with 16%nat.
  match goal with
  | |- context [for_loop _ 0 init_addr_pin (?c, ?h0)] =>
      destruct (init_addr_loop c h0) as (h1 & Heq1 & Hl1 & Hd1 & Ho1);
      [exact Hab|]
  end.
  rewrite Heq1.
  rewrite bind_Some. cbv beta iota.
  match goal with
  | |- context [for_loop _ 0 init_io_pin (?c, ?h0)] =>
      destruct (init_io_loop c h0) as (h2 & Heq2 & Hl2 & Hd2 & Ho2);
      [exact Hio|]
  end.
  rewrite Heq2.
  rewrite bind_Some. cbv beta iota.
  match goal with
  | |- context [read_address ?c ?h0] =>
      destruct (read_address_spec c h0) as (p0 & p1 & p2 & Hps & Heq3);
      [reflexivity|]
  end.
  rewrite Heq3.
  cbn in Hps. injection Hps as <- <- <-.
  rewrite bind_Some. cbv beta iota. unfold pin_read. rewrite Hl2, Hl1.
  cbn [with_modes pin_levels]. unfold i2c_init, printf.
  cbn [i2c_devices pin_levels stdout pin_modes pin_watches].
  rewrite Hd2, Hd1.
  cbn [with_modes i2c_devices].
  eexists. split; [reflexivity|]. split.
  - unfold interruptFlagOff, pin_mode. cbn. apply lookup_insert_eq.
  - cbn. by rewrite Hl2, Hl1.
Qed.

Lemma chip_ok_initial mem h : chip_ok (initial_chip mem h).
Proof.
  constructor; cbn [initial_chip io addressBits i2c_portcount nINT].
  - reflexivity.
  - reflexivity.
  - by left.
  - refine (bool_decide_unpack _ _). by vm_compute.
  - refine (bool_decide_unpack _ _). by vm_compute.
Qed.

(** From start-up on, every sequence of callbacks runs to completion and the
    invariant holds at its end. *)
Corollary run_after_init mem h es :
  sizes_ok mem ->
  exists c h0 c' h',
    chip_init mem h = Some (c, h0) /\
    run es c h0 = Some (c', h') /\ chip_ok c'.
Proof.
  intros Hsz.
  destruct (chip_init_spec mem h Hsz) as (h0 & Hinit & _).
  destruct (run_spec es (initial_chip mem h) h0 (chip_ok_initial mem h)) as
    (c' & h' & Hrun & Hok & _).
  by exists (initial_chip mem h), h0, c', h'.
Qed.

(** ** The effect of a write, line by line *)

Lemma on_i2c_write_lines c h data :
  chip_ok c ->
  exists c' h',
    on_i2c_write c h data = Some (c', h', true) /\
    chip_ok c' /\
    i2c_portcount c' = 1 - i2c_portcount c /\
    io c' = io c /\ io_watch_config c' = io_watch_config c /\
    (forall j, 0 <= j < 16 -> in_port c j ->
       Z.testbit (inputMask c') j =
       Z.testbit (mask_before_write c) j
       || Z.testbit data (j - i2c_portcount c * 8)) /\
    (forall j, 0 <= j < 16 -> ~ in_port c j ->
       Z.testbit (inputMask c') j = Z.testbit (mask_before_write c) j) /\
    (forall k, 0 <= k < 8 ->
       if Z.testbit data k
       then monitored c' h' (k + i2c_portcount c * 8)
       else driven_low c' h' (k + i2c_portcount c * 8)) /\
    (forall j, 0 <= j < 16 -> ~ in_port c j ->
       (monitored c' h' j <-> monitored c h j) /\
       (driven_low c' h' j <-> driven_low c h j)).
Proof.
  intros [Hio Hab Hpc Hnd Hfresh].
  destruct (on_i2c_write_spec c h data Hio Hnd Hpc) as
    (m & h' & Hw & Hm & Hcfg & Hframe & _).
  do 2 eexists. split; [exact Hw|].
  split; [constructor; cbn; auto; lia|].
  cbn [i2c_portcount io io_watch_config inputMask set_i2c_portcount
       set_inputMask].
  split; [done|]. split; [done|]. split; [done|]. unfold in_port.
  split.
  { intros j Hj Hin. rewrite Hm, bool_decide_eq_true_2 by lia. done. }
  split.
  { intros j Hj Hout. rewrite Hm, bool_decide_eq_false_2 by lia.
    by rewrite orb_false_r. }
  split.
  { intros k Hk.
    destruct (array_get_Some (io c) (k + i2c_portcount c * 8)) as [p Hp];
      [lia|].
    destruct (Hcfg k p Hk Hp) as [Hmode Hwatch].
    unfold monitored, driven_low.
    cbn [io io_watch_config set_i2c_portcount set_inputMask]. rewrite Hp.
    destruct (Z.testbit data k); done. }
  intros j Hj Hout.
  destruct (array_get_Some (io c) j) as [p Hp]; [lia|].
  destruct (Hframe p) as [Hfm Hfw].
  { intros k Hk Hkp. pose proof (array_get_inj _ _ _ _ Hnd Hkp Hp). lia. }
  unfold monitored, driven_low.
  cbn [io io_watch_config set_i2c_portcount set_inputMask].
  rewrite Hp, Hfm, Hfw. done.
Qed.

(** ** The invariant on the concrete states *)

Ltac concrete_chip_ok :=
  constructor;
  [ by vm_compute | by vm_compute | vm_compute; auto
  | refine (bool_decide_unpack _ _); by vm_compute
  | refine (bool_decide_unpack _ _); by vm_compute ].

Lemma booted_chip_ok : chip_ok booted_chip.
Proof. concrete_chip_ok. Defined.

Lemma one_input_chip_ok : chip_ok (fst one_input_state).
Proof. concrete_chip_ok. Defined.

Lemma io_edges_no_read_connect es :
  forallb (fun e => negb (is_read_connect e)) (io_edges es) = true.
Proof. induction es as [|[p v] es IH]; [done|exact IH]. Qed.

(** ** The interrupt line *)

Lemma int_asserted_not_released c h : int_asserted c h -> ~ int_released c h.
Proof. unfold int_asserted, int_released. congruence. Qed.

(** C1.  After any sequence of edges on monitored lines, one more
    invocation of the monitored-line callback recomputes [inputValue] and
    leaves the interrupt line driven low when the new value differs from
    [lastReadValue] and floating when they are equal; [lastReadValue] is
    still the one the sequence started with.  Every other callback except a
    read-type connect leaves the mode of the interrupt pin as it was. *)
Theorem interrupt_follows_comparison c h (es : list (pin_t * bool))
    (pin : pin_t) (value : bool) :
  chip_ok c ->
  (exists c1 h1 c' h' v,
     run (io_edges es) c h = Some (c1, h1) /\
     dispatch (EvIoChange pin value) c1 h1 = Some (c', h', Void) /\
     readInputsValue c1 (set_level pin value h1) = Some v /\
     inputValue c' = v /\
     lastReadValue c' = lastReadValue c /\
     (int_asserted c' h' <-> v <> lastReadValue c') /\
     (int_released c' h' <-> v = lastReadValue c')) /\
  (forall e, is_io_change e = false -> is_read_connect e = false ->
     exists c' h' r,
       dispatch e c h = Some (c', h', r) /\
       nINT c' = nINT c /\
       pin_modes h' !! nINT c' = pin_modes h !! nINT c).
Proof.
  intros Hok. split.
  - destruct (run_spec (io_edges es) c h Hok) as
      (c1 & h1 & Hrun & Hok1 & _ & _ & Hl1).
    specialize (Hl1 (io_edges_no_read_connect es)).
    destruct (readInputsValue_spec c1 (set_level pin value h1)) as
      (v & Hv & _); [by destruct Hok1|].
    exists c1, h1. do 2 eexists. exists v.
    split; [done|]. split.
    { cbn [dispatch]. unfold chip_input_io_change. rewrite Hv.
      cbn [mbind option_bind]. reflexivity. }
    split; [done|]. split; [done|]. split; [done|].
    cbn [inputValue lastReadValue set_inputValue].
    match goal with
    | |- (int_asserted ?c' ?h' <-> _) /\ _ =>
        assert (Hon : v <> lastReadValue c1 -> int_asserted c' h');
        [|assert (Hoff : v = lastReadValue c1 -> int_released c' h')]
    end.
    { intros Hcmp. apply Z.eqb_neq in Hcmp. unfold int_asserted.
      rewrite Hcmp. cbn. apply lookup_insert_eq. }
    { intros Hcmp. apply Z.eqb_eq in Hcmp. unfold int_released.
      rewrite Hcmp. cbn. apply lookup_insert_eq. }
    split; (split; [|done]); intros Hmode.
    + intros Heq. by apply (int_asserted_not_released _ _ Hmode), Hoff.
    + destruct (decide (v = lastReadValue c1)) as [|Hne]; [done|].
      by destruct (int_asserted_not_released _ _ (Hon Hne)).
  - intros e Hio Hrc.
    destruct (dispatch_spec e c h Hok) as
      (c' & h' & r & Hd & _ & _ & Hn & _ & _ & Hint).
    exists c', h', r. split; [done|]. split; [done|]. by apply Hint.
Qed.

Lemma interrupt_follows_comparison_witness :
  chip_ok booted_chip /\
  ((exists c1 h1 c' h' v,
      run (io_edges [("P00", false)]) booted_chip booted_host = Some (c1, h1) /\
      dispatch (EvIoChange "P01" false) c1 h1 = Some (c', h', Void) /\
      readInputsValue c1 (set_level "P01" false h1) = Some v /\
      inputValue c' = v /\
      lastReadValue c' = lastReadValue booted_chip /\
      (int_asserted c' h' <-> v <> lastReadValue c') /\
      (int_released c' h' <-> v = lastReadValue c')) /\
   (forall e, is_io_change e = false -> is_read_connect e = false ->
      exists c' h' r,
        dispatch e booted_chip booted_host = Some (c', h', r) /\
        nINT c' = nINT booted_chip /\
        pin_modes h' !! nINT c' = pin_modes booted_host !! nINT booted_chip)).
Proof.
  split; [exact booted_chip_ok|].
  apply (interrupt_follows_comparison booted_chip booted_host
           [("P00", false)] "P01" false).
  exact booted_chip_ok.
Defined.

(** Two falling edges after start-up: the value read becomes 0xfffc, differs
    from the 0xffff the block happened to hold, and the line is driven low;
    when the pins return to high it floats again. *)
Example edges_after_boot :
  option_map (fun s => (inputValue (fst s), pin_modes (snd s) !! nINT (fst s)))
    (run (io_edges [("P00", false); ("P01", false)]) booted_chip booted_host)
  = Some (0xfffc, Some OUTPUT_LOW) /\
  option_map (fun s => (inputValue (fst s), pin_modes (snd s) !! nINT (fst s)))
    (run (io_edges [("P00", false); ("P00", true)]) booted_chip booted_host)
  = Some (0xffff, Some INPUT).
Proof. split; by vm_compute. Qed.

(** ** Reading *)

Lemma read_bytes_total n : forall c,
  i2c_portcount c = 0 \/ i2c_portcount c = 1 ->
  exists c' bs,
    read_bytes n c = Some (c', bs) /\ length bs = n /\
    (i2c_portcount c' = 0 \/ i2c_portcount c' = 1) /\
    lastReadValue c' = lastReadValue c /\ inputValue c' = inputValue c /\
    nINT c' = nINT c.
Proof.
  induction n as [|n IH]; intros c Hpc.
  - exists c, []. by split_and!.
  - destruct (IH (set_i2c_portcount (1 - i2c_portcount c) c)) as
      (c' & bs & Hr & Hlen & Hpc' & Hl & Hv & Hn); [cbn; lia|].
    exists c'. eexists. cbn [read_bytes].
    rewrite on_i2c_read_spec by done. cbn [mbind option_bind].
    rewrite Hr. cbn [mbind option_bind]. split; [reflexivity|].
    cbn [length]. split_and!; auto.
Qed.

(** C2.  With the byte index at 0 or 1, a bus read returns the low byte of
    [inputValue] at index 0 and the high byte at index 1, and toggles the
    index, leaving the rest of the state alone; any number of successive
    reads succeeds and leaves the index at 0 or 1; with [inputValue] 0x1234
    three successive reads from index 0 return 0x34, 0x12, 0x34. *)
Theorem read_returns_indexed_byte c :
  i2c_portcount c = 0 \/ i2c_portcount c = 1 ->
  on_i2c_read c =
    Some (set_i2c_portcount (1 - i2c_portcount c) c,
          if i2c_portcount c =? 0 then inputValue c mod 256
          else (inputValue c / 256) mod 256) /\
  (forall n, exists c' bs,
     read_bytes n c = Some (c', bs) /\ length bs = n /\
     (i2c_portcount c' = 0 \/ i2c_portcount c' = 1)) /\
  (inputValue c = 0x1234 -> i2c_portcount c = 0 ->
   read_bytes 3 c = Some (set_i2c_portcount 1 c, [0x34; 0x12; 0x34])).
Proof.
  intros Hpc. split.
  { rewrite on_i2c_read_spec by done. do 2 f_equal.
    destruct Hpc as [-> | ->]; cbn [Z.eqb Z.pow Z.pow_pos Pos.iter Z.mul
                                     Pos.mul].
    - by rewrite Z.div_1_r.
    - reflexivity. }
  split.
  { intros n. destruct (read_bytes_total n c Hpc) as (c' & bs & H1 & H2 & H3 & _).
    by exists c', bs. }
  intros Hv H0. cbn [read_bytes].
  rewrite on_i2c_read_spec by done. cbn [mbind option_bind].
  rewrite on_i2c_read_spec by (cbn; lia). cbn [mbind option_bind].
  rewrite on_i2c_read_spec by (cbn; lia). cbn [mbind option_bind].
  cbn [i2c_portcount inputValue set_i2c_portcount]. rewrite Hv, H0.
  reflexivity.
Qed.

Lemma read_returns_indexed_byte_witness :
  (i2c_portcount (set_inputValue 0x1234 booted_chip) = 0 \/
   i2c_portcount (set_inputValue 0x1234 booted_chip) = 1) /\
  read_bytes 3 (set_inputValue 0x1234 booted_chip)
  = Some (set_i2c_portcount 1 (set_inputValue 0x1234 booted_chip),
          [0x34; 0x12; 0x34]).
Proof.
  assert (H0 : i2c_portcount (set_inputValue 0x1234 booted_chip) = 0)
    by reflexivity.
  split; [by left|].
  apply (read_returns_indexed_byte (set_inputValue 0x1234 booted_chip));
    [by left|reflexivity|exact H0].
Defined.

(** Whatever the index held, a read never leaves it above 1. *)
Lemma on_i2c_read_index c c' v :
  on_i2c_read c = Some (c', v) ->
  i2c_portcount c' = 0 \/ i2c_portcount c' = 1.
Proof.
  unfold on_i2c_read. case_decide; [|discriminate].
  intros [= <- _]. apply incrementPortCount_range.
Qed.

(** C4.  A read-type connect stores the current [inputValue] in
    [lastReadValue], releases the interrupt line, resets the byte index and
    acknowledges, all in the connect itself; the byte reads that follow
    change neither the stored value nor the interrupt pin handle (they do not
    touch the simulator at all). *)
Theorem read_connect_snapshots_and_releases c h addr :
  exists c' h',
    on_i2c_connect c h addr true = (c', h', true) /\
    lastReadValue c' = inputValue c /\
    int_released c' h' /\
    i2c_portcount c' = 0 /\
    forall n, exists c'' bs,
      read_bytes n c' = Some (c'', bs) /\ length bs = n /\
      lastReadValue c'' = inputValue c /\ int_released c'' h'.
Proof.
  do 2 eexists. split; [reflexivity|].
  cbn [lastReadValue i2c_portcount inputValue set_lastReadValue
       set_i2c_portcount].
  split; [done|].
  assert (Hrel : forall c0, nINT c0 = nINT c ->
            int_released c0
              (interruptFlagOff
                 (set_lastReadValue (inputValue c) (set_i2c_portcount 0 c))
                 (printf PrintReadResetInt
                    (if negb (addr =? address c)
                     then printf (PrintAddrMismatch addr (address c)) h
                     else h)))).
  { intros c0 Hc0. unfold int_released, interruptFlagOff, pin_mode.
    rewrite Hc0. cbn. apply lookup_insert_eq. }
  split; [by apply Hrel|]. split; [done|].
  intros n.
  destruct (read_bytes_total n
              (set_lastReadValue (inputValue c) (set_i2c_portcount 0 c)))
    as (c'' & bs & Hr & Hlen & _ & Hl & _ & Hn); [by left|].
  exists c'', bs. split_and!; auto.
Qed.

(** ** Writing *)

Lemma testbit_0xff k : 0 <= k < 8 -> Z.testbit 0xff k = true.
Proof. intros Hk. change 255 with (Z.ones 8). apply Z.ones_spec_low. lia. Qed.

Lemma run_two_writes c h d0 d1 c1 h1 c2 h2 :
  on_i2c_write c h d0 = Some (c1, h1, true) ->
  on_i2c_write c1 h1 d1 = Some (c2, h2, true) ->
  run [EvWrite d0; EvWrite d1] c h = Some (c2, h2).
Proof.
  intros H0 H1. cbn [run dispatch]. rewrite H0. cbn [mbind option_bind].
  rewrite H1. reflexivity.
Qed.

(** C3.  A bus write acknowledges and toggles the byte index.  Lines outside
    the addressed port keep no mask bit when the index was 0 (the mask is
    cleared first) and keep their mask bit when it was 1.  Line
    [k + index * 8] becomes a pulled-up, watched input with its mask bit set
    when bit [k] of the byte is 1, and an output driven low when it is 0.
    From index 0 the bytes 0xFF, 0x00 make lines 0-7 monitored inputs and
    lines 8-15 outputs driven low, and a third byte is taken as the first
    byte of a new pair: it is acknowledged, the mask is cleared and lines 0-7
    are configured from it. *)
Theorem write_configures_port c h data :
  chip_ok c ->
  (exists c' h',
     on_i2c_write c h data = Some (c', h', true) /\
     i2c_portcount c' = 1 - i2c_portcount c /\
     (forall j, 0 <= j < 16 -> ~ in_port c j ->
        Z.testbit (inputMask c') j =
        if i2c_portcount c =? 0 then false else Z.testbit (inputMask c) j) /\
     (forall k, 0 <= k < 8 ->
        if Z.testbit data k
        then monitored c' h' (k + i2c_portcount c * 8) /\
             Z.testbit (inputMask c') (k + i2c_portcount c * 8) = true
        else driven_low c' h' (k + i2c_portcount c * 8) /\
             Z.testbit (inputMask c') (k + i2c_portcount c * 8) =
             if i2c_portcount c =? 0 then false
             else Z.testbit (inputMask c) (k + i2c_portcount c * 8))) /\
  (i2c_portcount c = 0 ->
   forall d3, exists c2 h2 c3 h3,
     run [EvWrite 0xff; EvWrite 0x00] c h = Some (c2, h2) /\
     (forall i, 0 <= i < 8 -> monitored c2 h2 i) /\
     (forall i, 8 <= i < 16 -> driven_low c2 h2 i) /\
     i2c_portcount c2 = 0 /\
     on_i2c_write c2 h2 d3 = Some (c3, h3, true) /\
     i2c_portcount c3 = 1 /\
     (forall k, 0 <= k < 8 ->
        if Z.testbit d3 k
        then monitored c3 h3 k /\ Z.testbit (inputMask c3) k = true
        else driven_low c3 h3 k /\ Z.testbit (inputMask c3) k = false) /\
     (forall j, 8 <= j < 16 -> Z.testbit (inputMask c3) j = false)).
Proof.
  intros Hok.
  assert (Hmb : forall c0 j,
            Z.testbit (mask_before_write c0) j =
            if i2c_portcount c0 =? 0 then false
            else Z.testbit (inputMask c0) j).
  { intros c0 j. unfold mask_before_write.
    destruct (i2c_portcount c0 =? 0); [apply Z.bits_0|done]. }
  split.
  - destruct (on_i2c_write_lines c h data Hok) as
      (c' & h' & Hw & _ & Hpc' & _ & _ & Hin & Hout & Hlines & _).
    exists c', h'. split; [done|]. split; [done|]. split.
    { intros j Hj Hnp. by rewrite Hout, Hmb. }
    intros k Hk. specialize (Hlines k Hk).
    assert (Hport : in_port c (k + i2c_portcount c * 8))
      by (unfold in_port; lia).
    assert (Hrange : 0 <= k + i2c_portcount c * 8 < 16)
      by (destruct Hok as [_ _ [-> | ->] _ _]; lia).
    pose proof (Hin _ Hrange Hport) as Hbit.
    replace (k + i2c_portcount c * 8 - i2c_portcount c * 8) with k in Hbit
      by lia.
    rewrite Hmb in Hbit.
    destruct (Z.testbit data k).
    + split; [done|]. by rewrite Hbit, orb_true_r.
    + split; [done|]. by rewrite Hbit, orb_false_r.
  - intros Hpc d3.
    destruct (on_i2c_write_lines c h 0xff Hok) as
      (c1 & h1 & Hw1 & Hok1 & Hpc1 & _ & _ & _ & _ & Hlines1 & _).
    destruct (on_i2c_write_lines c1 h1 0x00 Hok1) as
      (c2 & h2 & Hw2 & Hok2 & Hpc2 & _ & _ & _ & _ & Hlines2 & Hframe2).
    destruct (on_i2c_write_lines c2 h2 d3 Hok2) as
      (c3 & h3 & Hw3 & _ & Hpc3 & _ & _ & Hin3 & Hout3 & Hlines3 & _).
    unfold in_port in Hframe2, Hin3, Hout3.
    rewrite Hpc in Hpc1. change (1 - 0) with 1 in Hpc1.
    rewrite Hpc1 in Hpc2, Hlines2, Hframe2. change (1 - 1) with 0 in Hpc2.
    rewrite Hpc2 in Hpc3, Hlines3, Hin3, Hout3. change (1 - 0) with 1 in Hpc3.
    rewrite Hpc in Hlines1.
    exists c2, h2, c3, h3.
    split; [by apply (run_two_writes c h 0xff 0 c1 h1)|].
    split.
    { intros i Hi. apply Hframe2; [lia|lia|].
      specialize (Hlines1 i Hi). rewrite testbit_0xff in Hlines1 by done.
      by replace (i + 0 * 8) with i in Hlines1 by lia. }
    split.
    { intros i Hi. specialize (Hlines2 (i - 8)). rewrite Z.bits_0 in Hlines2.
      replace (i - 8 + 1 * 8) with i in Hlines2 by lia.
      apply Hlines2. lia. }
    split; [done|]. split; [done|]. split; [done|]. split.
    { intros k Hk. specialize (Hlines3 k Hk).
      replace (k + 0 * 8) with k in Hlines3 by lia.
      assert (Hbit : Z.testbit (inputMask c3) k = Z.testbit d3 k).
      { rewrite Hin3 by lia. rewrite Hmb, Hpc2.
        cbn [Z.eqb orb]. f_equal. lia. }
      rewrite Hbit. destruct (Z.testbit d3 k); done. }
    intros j Hj. rewrite Hout3 by lia.
    by rewrite Hmb, Hpc2.
Qed.

Lemma write_configures_port_witness :
  chip_ok booted_chip /\ i2c_portcount booted_chip = 0 /\
  exists c2 h2 c3 h3,
    run [EvWrite 0xff; EvWrite 0x00] booted_chip booted_host = Some (c2, h2) /\
    (forall i, 0 <= i < 8 -> monitored c2 h2 i) /\
    (forall i, 8 <= i < 16 -> driven_low c2 h2 i) /\
    i2c_portcount c2 = 0 /\
    on_i2c_write c2 h2 0x0f = Some (c3, h3, true) /\
    i2c_portcount c3 = 1 /\
    (forall k, 0 <= k < 8 ->
       if Z.testbit 0x0f k
       then monitored c3 h3 k /\ Z.testbit (inputMask c3) k = true
       else driven_low c3 h3 k /\ Z.testbit (inputMask c3) k = false) /\
    (forall j, 8 <= j < 16 -> Z.testbit (inputMask c3) j = false).
Proof.
  split; [exact booted_chip_ok|]. split; [reflexivity|].
  apply (write_configures_port booted_chip booted_host 0xff booted_chip_ok).
  reflexivity.
Defined.

(** The same transaction, evaluated: mask, index and the modes of P00, P07,
    P10 and P17 after the bytes 0xFF, 0x00 and after a third byte 0x0F. *)
Example write_ff_00_after_boot :
  option_map
    (fun s => (inputMask (fst s), i2c_portcount (fst s),
               pin_modes (snd s) !! "P00", pin_modes (snd s) !! "P07",
               pin_modes (snd s) !! "P10", pin_modes (snd s) !! "P17"))
    (run [EvConnect 0x22 false; EvWrite 0xff; EvWrite 0x00]
         booted_chip booted_host)
  = Some (0x00ff, 0, Some INPUT_PULLUP, Some INPUT_PULLUP,
          Some OUTPUT_LOW, Some OUTPUT_LOW) /\
  option_map
    (fun s => (inputMask (fst s), i2c_portcount (fst s),
               pin_modes (snd s) !! "P00", pin_modes (snd s) !! "P07",
               pin_modes (snd s) !! "P10", pin_modes (snd s) !! "P17"))
    (run [EvConnect 0x22 false; EvWrite 0xff; EvWrite 0x00; EvWrite 0x0f]
         booted_chip booted_host)
  = Some (0x000f, 1, Some INPUT_PULLUP, Some OUTPUT_LOW,
          Some OUTPUT_LOW, Some OUTPUT_LOW).
Proof. split; by vm_compute. Qed.

(** ** Mask and pin modes *)

Lemma monitored_not_driven_low c h i : monitored c h i -> ~ driven_low c h i.
Proof.
  unfold monitored, driven_low.
  destruct (array_get (io c) i); [|done]. intros [H1 _] [H2 _]. congruence.
Qed.

Lemma agree_from_bit c h i (b : bool) :
  (if b then monitored c h i else driven_low c h i) ->
  Z.testbit (inputMask c) i = b ->
  (Z.testbit (inputMask c) i = true <-> monitored c h i) /\
  (Z.testbit (inputMask c) i = false <-> driven_low c h i).
Proof.
  intros Hline ->. destruct b.
  - split; split; try done.
    intros Hd. by destruct (monitored_not_driven_low c h i).
  - split; split; try done.
    intros Hm. by destruct (monitored_not_driven_low c h i).
Qed.

Lemma first_byte_after_boot :
  on_i2c_write booted_chip booted_host 0xff
  = Some (fst first_byte_state, snd first_byte_state, true).
Proof. vm_compute. reflexivity. Qed.

(** C5, as stated, fails: after the first byte 0xFF of a write transaction on
    the booted chip the mask bit of line 8 is clear while the pin of line 8
    is still a pulled-up input with its watch registered. *)
Lemma mask_lags_after_first_byte :
  ~ (forall c h data c' h',
       chip_ok c ->
       on_i2c_write c h data = Some (c', h', true) ->
       forall i, 0 <= i < 16 ->
         (Z.testbit (inputMask c') i = true <-> monitored c' h' i)).
Proof.
  intros H.
  pose proof (H booted_chip booted_host 0xff _ _ booted_chip_ok
                first_byte_after_boot 8 ltac:(lia)) as [_ Hback].
  assert (Hmon : monitored (fst first_byte_state) (snd first_byte_state) 8).
  { unfold monitored. vm_compute. split; reflexivity. }
  assert (Hbit : Z.testbit (inputMask (fst first_byte_state)) 8 = false).
  { vm_compute. reflexivity. }
  specialize (Hback Hmon). rewrite Hbit in Hback. discriminate Hback.
Qed.

(** C5, amended.  A write at index 0 followed by a write at index 1 both
    acknowledge.  After the first byte, mask bit and pin configuration agree
    on lines 0-7, while lines 8-15 have their mask bit cleared and keep the
    pin mode and watch they had.  After the second byte, for every line
    0-15 the mask bit is set exactly when the line is a pulled-up input with
    its watch registered, and clear exactly when it is an output driven low
    without a watch. *)
Theorem mask_matches_modes_after_pair c h d0 d1 :
  chip_ok c -> i2c_portcount c = 0 ->
  exists c1 h1 c2 h2,
    on_i2c_write c h d0 = Some (c1, h1, true) /\
    on_i2c_write c1 h1 d1 = Some (c2, h2, true) /\
    (forall i, 0 <= i < 8 ->
       (Z.testbit (inputMask c1) i = true <-> monitored c1 h1 i) /\
       (Z.testbit (inputMask c1) i = false <-> driven_low c1 h1 i)) /\
    (forall i, 8 <= i < 16 ->
       Z.testbit (inputMask c1) i = false /\
       (monitored c1 h1 i <-> monitored c h i) /\
       (driven_low c1 h1 i <-> driven_low c h i)) /\
    mask_matches_modes c2 h2.
Proof.
  intros Hok Hpc.
  destruct (on_i2c_write_lines c h d0 Hok) as
    (c1 & h1 & Hw1 & Hok1 & Hpc1 & _ & _ & Hin1 & Hout1 & Hlines1 & Hframe1).
  destruct (on_i2c_write_lines c1 h1 d1 Hok1) as
    (c2 & h2 & Hw2 & _ & _ & _ & _ & Hin2 & Hout2 & Hlines2 & Hframe2).
  unfold in_port, mask_before_write in *.
  rewrite Hpc in Hpc1. change (1 - 0) with 1 in Hpc1.
  rewrite Hpc in Hin1, Hout1, Hlines1, Hframe1.
  rewrite Hpc1 in Hin2, Hout2, Hlines2, Hframe2.
  cbn [Z.eqb] in Hin1, Hout1, Hin2, Hout2.
  assert (Hlow : forall i, 0 <= i < 8 ->
            (if Z.testbit d0 i then monitored c1 h1 i else driven_low c1 h1 i)
            /\ Z.testbit (inputMask c1) i = Z.testbit d0 i).
  { intros i Hi. split.
    - specialize (Hlines1 i Hi). by replace (i + 0 * 8) with i in Hlines1 by lia.
    - rewrite Hin1, Z.bits_0 by lia. cbn [orb]. f_equal. lia. }
  assert (Hhigh : forall i, 8 <= i < 16 -> Z.testbit (inputMask c1) i = false).
  { intros i Hi. rewrite Hout1 by lia. apply Z.bits_0. }
  exists c1, h1, c2, h2. split; [done|]. split; [done|]. split.
  { intros i Hi. destruct (Hlow i Hi) as [Hline Hbit].
    by apply (agree_from_bit c1 h1 i (Z.testbit d0 i)). }
  split.
  { intros i Hi. split; [by apply Hhigh|]. apply Hframe1; lia. }
  intros i Hi. destruct (decide (i < 8)) as [Hlt|Hge].
  - destruct (Hlow i) as [Hline Hbit]; [lia|].
    apply (agree_from_bit c2 h2 i (Z.testbit d0 i)).
    + destruct (Hframe2 i) as [Hm Hd]; [lia|lia|].
      destruct (Z.testbit d0 i); [by apply Hm|by apply Hd].
    + by rewrite Hout2 by lia.
  - apply (agree_from_bit c2 h2 i (Z.testbit d1 (i - 8))).
    + specialize (Hlines2 (i - 8)).
      replace (i - 8 + 1 * 8) with i in Hlines2 by lia. apply Hlines2. lia.
    + rewrite Hin2, Hhigh by lia. cbn [orb]. f_equal; lia.
Qed.

Lemma mask_matches_modes_after_pair_witness :
  chip_ok booted_chip /\ i2c_portcount booted_chip = 0 /\
  exists c1 h1 c2 h2,
    on_i2c_write booted_chip booted_host 0xff = Some (c1, h1, true) /\
    on_i2c_write c1 h1 0x00 = Some (c2, h2, true) /\
    (forall i, 0 <= i < 8 ->
       (Z.testbit (inputMask c1) i = true <-> monitored c1 h1 i) /\
       (Z.testbit (inputMask c1) i = false <-> driven_low c1 h1 i)) /\
    (forall i, 8 <= i < 16 ->
       Z.testbit (inputMask c1) i = false /\
       (monitored c1 h1 i <-> monitored booted_chip booted_host i) /\
       (driven_low c1 h1 i <-> driven_low booted_chip booted_host i)) /\
    mask_matches_modes c2 h2.
Proof.
  split; [exact booted_chip_ok|]. split; [reflexivity|].
  apply (mask_matches_modes_after_pair booted_chip booted_host 0xff 0x00
           booted_chip_ok).
  reflexivity.
Defined.

(** ** Recomputing the input value *)

Lemma edge_on_one_input :
  dispatch (EvIoChange "P00" false) (fst one_input_state) (snd one_input_state)
  = Some (fst one_input_after_edge, snd one_input_after_edge, Void).
Proof. vm_compute. reflexivity. Qed.

(** C6, as stated, fails: with line 0 the only input (mask 0x0001) and
    [inputValue] still 0xffff from start-up, a falling edge on P00 recomputes
    [inputValue] to 0; bit 1, whose mask bit is clear, was 1 and is now 0. *)
Lemma unmasked_bits_are_not_kept :
  ~ (forall c h pin value c' h',
       chip_ok c ->
       dispatch (EvIoChange pin value) c h = Some (c', h', Void) ->
       forall i, 0 <= i < 16 ->
         Z.testbit (inputMask c) i = false ->
         Z.testbit (inputValue c') i = Z.testbit (inputValue c) i).
Proof.
  intros H.
  assert (Hmask : Z.testbit (inputMask (fst one_input_state)) 1 = false).
  { vm_compute. reflexivity. }
  pose proof (H _ _ _ _ _ _ one_input_chip_ok edge_on_one_input 1
                ltac:(lia) Hmask) as Hkeep.
  assert (Hnew : Z.testbit (inputValue (fst one_input_after_edge)) 1 = false).
  { vm_compute. reflexivity. }
  assert (Hold : Z.testbit (inputValue (fst one_input_state)) 1 = true).
  { vm_compute. reflexivity. }
  rewrite Hnew, Hold in Hkeep. discriminate Hkeep.
Qed.

(** C6, amended.  The monitored-line callback runs to completion and
    recomputes [inputValue] from zero: for every line whose mask bit is clear
    the new bit is 0, whatever the previous value held, and for every line
    whose mask bit is set the new bit is the level the simulator reports for
    that line.  The mask itself is not changed. *)
Theorem unmasked_bits_read_zero c h pin value :
  chip_ok c ->
  exists c' h',
    dispatch (EvIoChange pin value) c h = Some (c', h', Void) /\
    inputMask c' = inputMask c /\
    (forall i, 0 <= i < 16 -> Z.testbit (inputMask c) i = false ->
       Z.testbit (inputValue c') i = false) /\
    (forall i, 0 <= i < 16 -> Z.testbit (inputMask c) i = true ->
       Z.testbit (inputValue c') i = line_level c (set_level pin value h) i).
Proof.
  intros [Hio _ _ _ _].
  destruct (readInputsValue_spec c (set_level pin value h) Hio) as
    (v & Hv & Hbits).
  do 2 eexists. split.
  { cbn [dispatch]. unfold chip_input_io_change. rewrite Hv.
    cbn [mbind option_bind]. reflexivity. }
  cbn [inputMask inputValue set_inputValue]. split; [done|]. split.
  - intros i Hi Hm. rewrite Hbits, Hm by lia. by rewrite andb_false_r.
  - intros i Hi Hm. rewrite Hbits, Hm by lia.
    by rewrite bool_decide_eq_true_2 by lia.
Qed.

Lemma unmasked_bits_read_zero_witness :
  chip_ok (fst one_input_state) /\
  exists c' h',
    dispatch (EvIoChange "P00" false) (fst one_input_state)
             (snd one_input_state) = Some (c', h', Void) /\
    inputMask c' = inputMask (fst one_input_state) /\
    (forall i, 0 <= i < 16 ->
       Z.testbit (inputMask (fst one_input_state)) i = false ->
       Z.testbit (inputValue c') i = false) /\
    (forall i, 0 <= i < 16 ->
       Z.testbit (inputMask (fst one_input_state)) i = true ->
       Z.testbit (inputValue c') i =
       line_level (fst one_input_state)
                  (set_level "P00" false (snd one_input_state)) i).
Proof.
  split; [exact one_input_chip_ok|].
  apply (unmasked_bits_read_zero (fst one_input_state) (snd one_input_state)
           "P00" false).
  exact one_input_chip_ok.
Defined.

(** ** Acknowledgement *)

Lemma every_connect_logs c h addr is_read :
  exists c' h',
    on_i2c_connect c h addr is_read = (c', h', true) /\
    stdout h' =
      stdout h ++
      (if addr =? address c then []
       else [PrintAddrMismatch addr (address c)]) ++
      (if is_read then [PrintReadResetInt] else []).
Proof.
  unfold on_i2c_connect.
  destruct (addr =? address c), is_read; cbn [negb];
    do 2 eexists; (split; [reflexivity|]);
    cbn; rewrite ?app_nil_r, <- ?app_assoc; done.
Qed.

(** C7.  A connect is acknowledged for every address and direction.  When
    the address differs from the chip's own, the resulting chip state, pin
    modes, watches, levels and registered devices are those of a connect with
    the chip's own address; the only difference is one more line of output.
    A write is acknowledged for every byte. *)
Theorem every_transaction_acknowledged c h addr is_read data :
  (exists c1 h1 h2,
     on_i2c_connect c h addr is_read = (c1, h1, true) /\
     on_i2c_connect c h (address c) is_read = (c1, h2, true) /\
     pin_modes h1 = pin_modes h2 /\ pin_watches h1 = pin_watches h2 /\
     pin_levels h1 = pin_levels h2 /\ i2c_devices h1 = i2c_devices h2 /\
     stdout h2 = stdout h ++ (if is_read then [PrintReadResetInt] else []) /\
     stdout h1 =
       stdout h ++
       (if addr =? address c then []
        else [PrintAddrMismatch addr (address c)]) ++
       (if is_read then [PrintReadResetInt] else [])) /\
  (chip_ok c ->
   exists c' h', on_i2c_write c h data = Some (c', h', true)).
Proof.
  split.
  - unfold on_i2c_connect. rewrite Z.eqb_refl. cbn [negb].
    destruct (addr =? address c), is_read; cbn [negb];
      do 3 eexists; (split; [reflexivity|]); (split; [reflexivity|]);
      cbn; rewrite ?app_nil_r, <- ?app_assoc; done.
  - intros Hok.
    destruct (on_i2c_write_lines c h data Hok) as (c' & h' & Hw & _).
    by exists c', h'.
Qed.

Lemma every_transaction_acknowledged_witness :
  chip_ok booted_chip /\
  exists c' h', on_i2c_write booted_chip booted_host 0xab = Some (c', h', true).
Proof.
  split; [exact booted_chip_ok|].
  apply (every_transaction_acknowledged booted_chip booted_host 0x55 false
           0xab).
  exact booted_chip_ok.
Defined.

(** A connect for 0x55 on the chip at 0x22: acknowledged, logged, and the
    chip state is the one a connect for 0x22 gives. *)
Example mismatched_connect_after_boot :
  snd (on_i2c_connect booted_chip booted_host 0x55 true) = true /\
  fst (fst (on_i2c_connect booted_chip booted_host 0x55 true))
  = fst (fst (on_i2c_connect booted_chip booted_host 0x22 true)) /\
  stdout (snd (fst (on_i2c_connect booted_chip booted_host 0x55 true)))
  = stdout booted_host ++ [PrintAddrMismatch 0x55 0x22; PrintReadResetInt].
Proof. split_and!; vm_compute; reflexivity. Qed.

(** ** Address resolution *)

Lemma address_of_levels_bits l0 l1 l2 :
  32 <= address_of_levels l0 l1 l2 < 40 /\
  Z.testbit (address_of_levels l0 l1 l2) 0 = l0 /\
  Z.testbit (address_of_levels l0 l1 l2) 1 = l1 /\
  Z.testbit (address_of_levels l0 l1 l2) 2 = l2 /\
  address_of_levels l0 l1 l2
  = I2C_BASE_ADDRESS + (Z.b2z l0 + 2 * Z.b2z l1 + 4 * Z.b2z l2).
Proof. destruct l0, l1, l2; vm_compute; intuition congruence. Qed.

(** C8.  With [p0], [p1], [p2] the three address-select pins, [read_address]
    returns the base address 0x20 OR-ed with the value whose bit [i] is the
    level of pin [i]; the result lies in 0x20..0x27.  An edge on any pin
    makes [chip_addr_change] store the address recomputed from the levels as
    they are after the edge, and the next connect compares the received
    address against exactly that value (a mismatch line is printed iff they
    differ). *)
Theorem address_from_select_lines c h pin value :
  length (addressBits c) = 3%nat ->
  exists p0 p1 p2,
    addressBits c = [p0; p1; p2] /\
    (let a := Z.lor I2C_BASE_ADDRESS
                (Z.b2z (pin_read p0 h) + 2 * Z.b2z (pin_read p1 h)
                 + 4 * Z.b2z (pin_read p2 h)) in
     (exists h1, read_address c h = Some (a, h1)) /\
     32 <= a < 40 /\
     Z.testbit a 0 = pin_read p0 h /\
     Z.testbit a 1 = pin_read p1 h /\
     Z.testbit a 2 = pin_read p2 h) /\
    (let h0 := set_level pin value h in
     let a := Z.lor I2C_BASE_ADDRESS
                (Z.b2z (pin_read p0 h0) + 2 * Z.b2z (pin_read p1 h0)
                 + 4 * Z.b2z (pin_read p2 h0)) in
     exists c' h',
       dispatch (EvAddrChange pin value) c h = Some (c', h', Void) /\
       address c' = a /\
       forall addr is_read, exists c2 h2,
         on_i2c_connect c' h' addr is_read = (c2, h2, true) /\
         stdout h2 =
           stdout h' ++
           (if addr =? a then [] else [PrintAddrMismatch addr a]) ++
           (if is_read then [PrintReadResetInt] else [])).
Proof.
  intros Hlen.
  destruct (read_address_spec c h Hlen) as (p0 & p1 & p2 & Hab & Hra).
  exists p0, p1, p2. split; [done|]. split.
  - cbv zeta. fold (address_of_levels (pin_read p0 h) (pin_read p1 h)
                                       (pin_read p2 h)).
    split; [by eexists|].
    pose proof (address_of_levels_bits (pin_read p0 h) (pin_read p1 h)
                  (pin_read p2 h)) as (? & ? & ? & ? & _).
    done.
  - cbv zeta.
    destruct (read_address_spec c (set_level pin value h) Hlen) as
      (q0 & q1 & q2 & Hab' & Hra').
    rewrite Hab in Hab'. injection Hab' as <- <- <-.
    do 2 eexists. split.
    { cbn [dispatch]. unfold chip_addr_change. rewrite Hra'.
      cbn [mbind option_bind]. reflexivity. }
    split; [reflexivity|].
    intros addr is_read.
    destruct (every_connect_logs
                (set_address
                   (address_of_levels (pin_read p0 (set_level pin value h))
                      (pin_read p1 (set_level pin value h))
                      (pin_read p2 (set_level pin value h))) c)
                (printf
                   (PrintAddress
                      (Z.b2z (pin_read p0 (set_level pin value h))
                       + 2 * Z.b2z (pin_read p1 (set_level pin value h))
                       + 4 * Z.b2z (pin_read p2 (set_level pin value h)))
                      (address_of_levels
                         (pin_read p0 (set_level pin value h))
                         (pin_read p1 (set_level pin value h))
                         (pin_read p2 (set_level pin value h))))
                   (set_level pin value h))
                addr is_read) as (c2 & h2 & Hc & Ho).
    exists c2, h2. split; [exact Hc|exact Ho].
Qed.

Lemma address_from_select_lines_witness :
  length (addressBits booted_chip) = 3%nat /\
  exists c' h',
    dispatch (EvAddrChange "A0" true) booted_chip booted_host
    = Some (c', h', Void) /\
    32 <= address c' < 40.
Proof.
  assert (Hlen : length (addressBits booted_chip) = 3%nat) by reflexivity.
  split; [exact Hlen|].
  destruct (address_from_select_lines booted_chip booted_host "A0" true Hlen)
    as (p0 & p1 & p2 & _ & _ & c' & h' & Hd & Ha & _).
  exists c', h'. split; [exact Hd|]. rewrite Ha.
  apply (address_of_levels_bits
           (pin_read p0 (set_level "A0" true booted_host))
           (pin_read p1 (set_level "A0" true booted_host))
           (pin_read p2 (set_level "A0" true booted_host))).
Defined.

(** Select lines {0,1,0} give 0x22 at start-up; raising A0 gives 0x23, and a
    connect for 0x22 is then reported as a mismatch against 0x23. *)
Example address_after_boot :
  address booted_chip = 0x22 /\
  option_map (fun r => address (fst (fst r)))
    (dispatch (EvAddrChange "A0" true) booted_chip booted_host) = Some 0x23 /\
  option_map (fun s => last (stdout (snd s)))
    (run [EvAddrChange "A0" true; EvConnect 0x22 false]
         booted_chip booted_host)
  = Some (Some (PrintAddrMismatch 0x22 0x23)).
Proof. split_and!; vm_compute; reflexivity. Qed.

(** ** Frame of [lastReadValue] *)

(** C9.  Every callback other than a read-type connect (bus read, bus write,
    disconnect, monitored-line change, address-line change and a write-type
    connect) runs to completion and leaves [lastReadValue] unchanged, and so
    does every sequence of such callbacks. *)
Theorem lastReadValue_only_set_by_read_connect c h :
  chip_ok c ->
  (forall e, is_read_connect e = false ->
     exists c' h' r,
       dispatch e c h = Some (c', h', r) /\
       lastReadValue c' = lastReadValue c) /\
  (forall es, forallb (fun e => negb (is_read_connect e)) es = true ->
     exists c' h',
       run es c h = Some (c', h') /\ lastReadValue c' = lastReadValue c).
Proof.
  intros Hok. split.
  - intros e He.
    destruct (dispatch_spec e c h Hok) as
      (c' & h' & r & Hd & _ & _ & _ & _ & Hl & _).
    exists c', h', r. split; [done|]. by apply Hl.
  - intros es Hes.
    destruct (run_spec es c h Hok) as (c' & h' & Hr & _ & _ & _ & Hl).
    exists c', h'. split; [done|]. by apply Hl.
Qed.

Lemma lastReadValue_only_set_by_read_connect_witness :
  chip_ok booted_chip /\
  exists c' h',
    run [EvConnect 0x22 false; EvWrite 0x0f; EvWrite 0x00; EvDisconnect;
         EvIoChange "P00" false; EvAddrChange "A2" true; EvRead]
        booted_chip booted_host = Some (c', h') /\
    lastReadValue c' = lastReadValue booted_chip.
Proof.
  split; [exact booted_chip_ok|].
  apply (lastReadValue_only_set_by_read_connect booted_chip booted_host
           booted_chip_ok).
  reflexivity.
Defined.

(** ** The state after start-up *)

(** C10.  For a block of the declared array sizes with arbitrary contents
    and a simulator with arbitrary pin levels, [chip_init] completes with
    [inputMask] = 0xFFFF, [inputValue] = 0xFFFF (the pins are not sampled),
    byte index 0 and the interrupt line released.  [lastReadValue] is left
    as the memory held it, and that value is what the first monitored-line
    change compares the recomputed inputs against. *)
Theorem state_after_chip_init mem h :
  sizes_ok mem ->
  exists c h',
    chip_init mem h = Some (c, h') /\
    chip_ok c /\
    inputMask c = 0xffff /\ inputValue c = 0xffff /\
    i2c_portcount c = 0 /\
    int_released c h' /\
    lastReadValue c = lastReadValue mem /\
    forall pin value, exists c2 h2,
      dispatch (EvIoChange pin value) c h' = Some (c2, h2, Void) /\
      (inputValue c2 <> lastReadValue mem -> int_asserted c2 h2) /\
      (inputValue c2 = lastReadValue mem -> int_released c2 h2).
Proof.
  intros Hsz.
  destruct (chip_init_spec mem h Hsz) as (h' & Hinit & Hint & _).
  exists (initial_chip mem h), h'. split; [done|].
  split; [apply chip_ok_initial|].
  do 3 (split; [reflexivity|]). split; [exact Hint|].
  split; [reflexivity|].
  intros pin value.
  destruct (readInputsValue_spec (initial_chip mem h)
              (set_level pin value h')) as (v & Hv & _); [reflexivity|].
  do 2 eexists. split.
  { cbn [dispatch]. unfold chip_input_io_change. rewrite Hv.
    cbn [mbind option_bind]. reflexivity. }
  cbn [inputValue lastReadValue set_inputValue initial_chip].
  unfold int_asserted, int_released.
  split; intros Hcmp.
  - apply Z.eqb_neq in Hcmp. rewrite Hcmp. cbn. apply lookup_insert_eq.
  - apply Z.eqb_eq in Hcmp. rewrite Hcmp. cbn. apply lookup_insert_eq.
Qed.

Lemma state_after_chip_init_witness :
  sizes_ok (stale_mem 0x1234) /\
  exists c h',
    chip_init (stale_mem 0x1234) (sim []) = Some (c, h') /\
    chip_ok c /\
    inputMask c = 0xffff /\ inputValue c = 0xffff /\
    i2c_portcount c = 0 /\
    int_released c h' /\
    lastReadValue c = lastReadValue (stale_mem 0x1234) /\
    forall pin value, exists c2 h2,
      dispatch (EvIoChange pin value) c h' = Some (c2, h2, Void) /\
      (inputValue c2 <> lastReadValue (stale_mem 0x1234) ->
       int_asserted c2 h2) /\
      (inputValue c2 = lastReadValue (stale_mem 0x1234) ->
       int_released c2 h2).
Proof.
  assert (Hsz : sizes_ok (stale_mem 0x1234)) by (split; reflexivity).
  split; [exact Hsz|].
  apply (state_after_chip_init (stale_mem 0x1234) (sim []) Hsz).
Defined.

(** With every I/O pin low at start-up [inputValue] is still 0xffff; and the
    same first edge asserts the interrupt or not depending only on what the
    memory held. *)
Example boot_with_pins_low :
  option_map (fun s => (inputMask (fst s), inputValue (fst s),
                        lastReadValue (fst s), pin_modes (snd s) !! "nINT"))
    (chip_init (stale_mem 0x1234) (sim []))
  = Some (0xffff, 0xffff, 0x1234, Some INPUT) /\
  option_map (fun s => (inputValue (fst s), pin_modes (snd s) !! "nINT"))
    ('(c, h) ← chip_init (stale_mem 0x0001) (sim []);
     run [EvIoChange "P00" true] c h)
  = Some (0x0001, Some INPUT) /\
  option_map (fun s => (inputValue (fst s), pin_modes (snd s) !! "nINT"))
    ('(c, h) ← chip_init (stale_mem 0x1234) (sim []);
     run [EvIoChange "P00" true] c h)
  = Some (0x0001, Some OUTPUT_LOW).
Proof. split_and!; vm_compute; reflexivity. Qed.

(** * Further properties of the code *)

(** ** The mask as a 16-bit word *)

Lemma u8_testbit (d j : Z) :
  0 <= j -> Z.testbit (u8 d) j = bool_decide (j < 8) && Z.testbit d j.
Proof.
  intros Hj. unfold u8. change 256 with (2 ^ 8). case_bool_decide.
  - apply Z.mod_pow2_bits_low. lia.
  - apply Z.mod_pow2_bits_high. lia.
Qed.

Lemma mask_word_testbit (d0 d1 j : Z) :
  0 <= j ->
  Z.testbit (mask_word d0 d1) j =
  (bool_decide (j < 8) && Z.testbit d0 j)
  || (bool_decide (8 <= j < 16) && Z.testbit d1 (j - 8)).
Proof.
  intros Hj. unfold mask_word.
  rewrite Z.lor_spec, Z.shiftl_spec, u8_testbit by lia. f_equal.
  destruct (decide (8 <= j)) as [Hge|Hlt].
  - rewrite u8_testbit by lia. f_equal. apply bool_decide_ext. lia.
  - rewrite Z.testbit_neg_r by lia.
    by rewrite bool_decide_eq_false_2 by lia.
Qed.

Lemma mask_word_range (d0 d1 : Z) : 0 <= mask_word d0 d1 < 65536.
Proof.
  assert (H : mask_word d0 d1 = u16 (mask_word d0 d1)).
  { apply Z.bits_inj'. intros j Hj. destruct (decide (j < 16)).
    - by rewrite u16_testbit by lia.
    - rewrite u16_testbit_high, mask_word_testbit by lia.
      by rewrite !bool_decide_eq_false_2 by lia. }
  rewrite H. unfold u16. apply Z.mod_pos_bound. lia.
Qed.

Lemma write_bit_mask_high data i c h c' h' :
  write_bit data i (c, h) = Some (c', h') ->
  (forall j, 16 <= j -> Z.testbit (inputMask c) j = false) ->
  forall j, 16 <= j -> Z.testbit (inputMask c') j = false.
Proof.
  unfold write_bit. destruct (array_get (io c) _); [|discriminate].
  cbn [mbind option_bind].
  destruct (truthy _); intros [= <- _] Hhigh j Hj.
  - cbn [inputMask set_inputMask]. by apply u16_testbit_high.
  - by apply Hhigh.
Qed.

Lemma write_loop_mask_high data n : forall i c h c' h',
  for_loop n i (write_bit data) (c, h) = Some (c', h') ->
  (forall j, 16 <= j -> Z.testbit (inputMask c) j = false) ->
  forall j, 16 <= j -> Z.testbit (inputMask c') j = false.
Proof.
  induction n as [|n IH]; intros i c h c' h' Hloop Hhigh.
  - injection Hloop as <- _. exact Hhigh.
  - cbn [for_loop] in Hloop.
    destruct (write_bit data i (c, h)) as [[c1 h1]|] eqn:Hstep;
      [|discriminate].
    cbn [mbind option_bind] in Hloop.
    apply (IH _ _ _ _ _ Hloop).
    by apply (write_bit_mask_high _ _ _ _ _ _ Hstep).
Qed.

Lemma on_i2c_write_mask_high c h data c' h' b :
  on_i2c_write c h data = Some (c', h', b) ->
  (forall j, 16 <= j -> Z.testbit (mask_before_write c) j = false) ->
  forall j, 16 <= j -> Z.testbit (inputMask c') j = false.
Proof.
  unfold on_i2c_write, mask_before_write, truthy. rewrite negb_involutive.
  intros Hw Hhigh.
  match type of Hw with
  | context [for_loop 8 0 _ (?c0, h)] =>
      destruct (for_loop 8 0 (write_bit data) (c0, h)) as [[c1 h1]|] eqn:Hloop;
      [|discriminate];
      pose proof (write_loop_mask_high _ _ _ _ _ _ _ Hloop) as Hc1
  end.
  cbn [mbind option_bind] in Hw. injection Hw as <- _ _.
  intros j Hj. unfold incrementPortCount.
  assert (Hm : Z.testbit (inputMask c1) j = false).
  { apply Hc1; [|done]. intros j' Hj'. specialize (Hhigh j' Hj').
    by destruct (i2c_portcount c =? 0). }
  by destruct (truthy (i2c_portcount c1)).
Qed.

Lemma write_pair_spec c h d0 d1 :
  chip_ok c -> i2c_portcount c = 0 ->
  exists m1 h1 h2,
    on_i2c_write c h d0
    = Some (set_i2c_portcount 1 (set_inputMask m1 c), h1, true) /\
    on_i2c_write (set_i2c_portcount 1 (set_inputMask m1 c)) h1 d1
    = Some (set_i2c_portcount 0 (set_inputMask (mask_word d0 d1) c), h2, true)
    /\
    (forall k p, 0 <= k < 8 -> array_get (io c) k = Some p ->
       pin_modes h2 !! p = Some (mode_of_bit (Z.testbit d0 k)) /\
       pin_watches h2 !! p = watch_of_bit c (Z.testbit d0 k)) /\
    (forall k p, 0 <= k < 8 -> array_get (io c) (k + 8) = Some p ->
       pin_modes h2 !! p = Some (mode_of_bit (Z.testbit d1 k)) /\
       pin_watches h2 !! p = watch_of_bit c (Z.testbit d1 k)) /\
    (forall p, p ∉ io c ->
       pin_modes h2 !! p = pin_modes h !! p /\
       pin_watches h2 !! p = pin_watches h !! p) /\
    pin_levels h2 = pin_levels h /\ i2c_devices h2 = i2c_devices h /\
    stdout h2 = stdout h ++ [PrintInputMask (mask_word d0 d1)].
Proof.
  intros [Hio Hab Hpc Hnd Hfresh] H0.
  destruct (on_i2c_write_spec c h d0 Hio Hnd Hpc) as
    (m1 & h1 & Hw1 & Hm1 & Hcfg1 & Hframe1 & Hl1 & Hd1 & Ho1).
  unfold mask_before_write in Hm1. rewrite H0 in Hw1, Hm1, Hcfg1, Hframe1, Ho1.
  change (1 - 0) with 1 in Hw1. cbn [Z.eqb] in Hm1, Ho1.
  destruct (on_i2c_write_spec (set_i2c_portcount 1 (set_inputMask m1 c)) h1 d1)
    as (m2 & h2 & Hw2 & Hm2 & Hcfg2 & Hframe2 & Hl2 & Hd2 & Ho2);
    [exact Hio|exact Hnd|by right|].
  unfold mask_before_write in Hm2.
  cbn [i2c_portcount inputMask io io_watch_config set_i2c_portcount
       set_inputMask Z.eqb] in Hw2, Hm2, Hcfg2, Hframe2, Ho2.
  assert (Hword : m2 = mask_word d0 d1).
  { apply Z.bits_inj'. intros j Hj. rewrite mask_word_testbit by done.
    destruct (decide (j < 16)) as [Hlt|Hge].
    - rewrite Hm2, Hm1, Z.bits_0 by lia. cbn [orb].
      replace (j - 0 * 8) with j by lia. replace (j - 1 * 8) with (j - 8) by lia.
      f_equal; f_equal; apply bool_decide_ext; lia.
    - rewrite !bool_decide_eq_false_2 by lia.
      apply (on_i2c_write_mask_high _ _ _ _ _ _ Hw2); [|lia].
      intros j' Hj'. unfold mask_before_write.
      cbn [i2c_portcount inputMask set_i2c_portcount set_inputMask Z.eqb].
      apply (on_i2c_write_mask_high _ _ _ _ _ _ Hw1); [|done].
      intros j'' _. unfold mask_before_write. rewrite H0. apply Z.bits_0. }
  subst m2. exists m1, h1, h2.
  split; [exact Hw1|]. split; [exact Hw2|]. split.
  { intros k p Hk Hp. destruct (Hframe2 p) as [Hfm Hfw].
    { intros k' Hk' Hk'p. pose proof (array_get_inj _ _ _ _ Hnd Hk'p Hp). lia. }
    rewrite Hfm, Hfw. apply (Hcfg1 k p Hk).
    by replace (k + 0 * 8) with k by lia. }
  split.
  { intros k p Hk Hp. apply (Hcfg2 k p Hk).
    by replace (k + 1 * 8) with (k + 8) by lia. }
  split.
  { intros p Hp.
    destruct (Hframe2 p) as [Hfm2 Hfw2].
    { intros k Hk Hkp. by apply Hp, (array_get_elem_of _ _ _ Hkp). }
    destruct (Hframe1 p) as [Hfm1 Hfw1].
    { intros k Hk Hkp. by apply Hp, (array_get_elem_of _ _ _ Hkp). }
    split; congruence. }
  split; [congruence|]. split; [congruence|].
  by rewrite Ho2, Ho1, app_nil_r.
Qed.

Lemma mask_word_sum (d0 d1 : Z) : mask_word d0 d1 = u8 d0 + 256 * u8 d1.
Proof.
  unfold mask_word.
  assert (Hdisj : Z.land (u8 d0) (Z.shiftl (u8 d1) 8) = 0).
  { apply Z.bits_inj'. intros j Hj.
    rewrite Z.land_spec, Z.bits_0, Z.shiftl_spec, u8_testbit by lia.
    destruct (decide (j < 8)).
    - by rewrite (Z.testbit_neg_r _ (j - 8)), andb_false_r by lia.
    - by rewrite bool_decide_eq_false_2 by lia. }
  rewrite <- Z.lxor_lor, <- Z.add_nocarry_lxor by done.
  rewrite Z.shiftl_mul_pow2 by lia. change (2 ^ 8) with 256. lia.
Qed.

(** X1.  Two bytes written from index 0 leave in [inputMask] exactly the
    16-bit word they form, first byte low: whatever the mask was before is
    gone, and the index is back at 0. *)
Theorem mask_is_word_of_two_bytes c h d0 d1 :
  chip_ok c -> i2c_portcount c = 0 ->
  exists c2 h2,
    run [EvWrite d0; EvWrite d1] c h = Some (c2, h2) /\
    inputMask c2 = Z.lor (u8 d0) (Z.shiftl (u8 d1) 8) /\
    inputMask c2 = u8 d0 + 256 * u8 d1 /\
    0 <= inputMask c2 < 65536 /\
    i2c_portcount c2 = 0.
Proof.
  intros Hok H0.
  destruct (write_pair_spec c h d0 d1 Hok H0) as (m1 & h1 & h2 & Hw1 & Hw2 & _).
  do 2 eexists. split; [exact (run_two_writes _ _ _ _ _ _ _ _ Hw1 Hw2)|].
  cbn [inputMask i2c_portcount set_i2c_portcount set_inputMask].
  split; [reflexivity|]. split; [apply mask_word_sum|].
  split; [apply mask_word_range|reflexivity].
Qed.

Lemma mask_is_word_of_two_bytes_witness :
  chip_ok booted_chip /\ i2c_portcount booted_chip = 0 /\
  exists c2 h2,
    run [EvWrite 0x0f; EvWrite 0xa0] booted_chip booted_host = Some (c2, h2) /\
    inputMask c2 = Z.lor (u8 0x0f) (Z.shiftl (u8 0xa0) 8) /\
    inputMask c2 = u8 0x0f + 256 * u8 0xa0 /\
    0 <= inputMask c2 < 65536 /\
    i2c_portcount c2 = 0.
Proof.
  split; [exact booted_chip_ok|]. split; [reflexivity|].
  apply (mask_is_word_of_two_bytes booted_chip booted_host 0x0f 0xa0
           booted_chip_ok).
  reflexivity.
Defined.

Lemma io_pin_line (l : list pin_t) (p : pin_t) :
  length l = 16%nat -> p ∈ l ->
  exists k, 0 <= k < 8 /\
    (array_get l k = Some p \/ array_get l (k + 8) = Some p).
Proof.
  intros Hlen [n Hn]%list_elem_of_lookup_1.
  pose proof (lookup_lt_Some _ _ _ Hn) as Hlt.
  destruct (decide (n < 8)%nat).
  - exists (Z.of_nat n). split; [lia|]. left. unfold array_get.
    rewrite decide_True by lia. by rewrite Nat2Z.id.
  - exists (Z.of_nat n - 8). split; [lia|]. right. unfold array_get.
    rewrite decide_True by lia.
    by replace (Z.to_nat (Z.of_nat n - 8 + 8)) with n by lia.
Qed.

(** X2.  Writing the same two bytes again in a second transaction changes
    nothing: the chip state is the same, and so are the mode and the watch of
    every pin of the simulator. *)
Theorem write_pair_idempotent c h d0 d1 addr :
  chip_ok c -> i2c_portcount c = 0 ->
  exists c2 h2 h4,
    run [EvWrite d0; EvWrite d1] c h = Some (c2, h2) /\
    run [EvConnect addr false; EvWrite d0; EvWrite d1] c2 h2 = Some (c2, h4) /\
    pin_modes h4 = pin_modes h2 /\ pin_watches h4 = pin_watches h2 /\
    pin_levels h4 = pin_levels h2 /\ i2c_devices h4 = i2c_devices h2.
Proof.
  intros Hok H0. pose proof Hok as [Hio Hab Hpc Hnd Hfresh].
  destruct (write_pair_spec c h d0 d1 Hok H0) as
    (m1 & h1 & h2 & Hw1 & Hw2 & Hlow & Hhigh & _).
  set (c2 := set_i2c_portcount 0 (set_inputMask (mask_word d0 d1) c)) in *.
  set (h2' := if negb (addr =? address c2)
              then printf (PrintAddrMismatch addr (address c2)) h2 else h2).
  assert (Hh2' : pin_modes h2' = pin_modes h2 /\
                 pin_watches h2' = pin_watches h2 /\
                 pin_levels h2' = pin_levels h2 /\
                 i2c_devices h2' = i2c_devices h2).
  { unfold h2'. by destruct (negb _). }
  destruct Hh2' as (Hm' & Hw' & Hl' & Hd').
  assert (Hok2 : chip_ok c2) by (constructor; cbn; auto).
  destruct (write_pair_spec c2 h2' d0 d1 Hok2 eq_refl) as
    (m3 & h3 & h4 & Hw3 & Hw4 & Hlow4 & Hhigh4 & Hframe4 & Hl4 & Hd4 & _).
  exists c2, h2, h4.
  split; [exact (run_two_writes _ _ _ _ _ _ _ _ Hw1 Hw2)|].
  split.
  { cbn [run dispatch]. unfold on_i2c_connect. fold h2'.
    cbn [mbind option_bind].
    change (set_i2c_portcount 0 c2) with c2.
    exact (run_two_writes _ _ _ _ _ _ _ _ Hw3 Hw4). }
  assert (Hpins : forall p,
            pin_modes h4 !! p = pin_modes h2 !! p /\
            pin_watches h4 !! p = pin_watches h2 !! p).
  { intros p. destruct (decide (p ∈ io c)) as [Hin|Hout].
    - destruct (io_pin_line _ _ Hio Hin) as (k & Hk & [Hp|Hp]).
      + destruct (Hlow k p Hk Hp) as [-> ->].
        exact (Hlow4 k p Hk Hp).
      + destruct (Hhigh k p Hk Hp) as [-> ->].
        exact (Hhigh4 k p Hk Hp).
    - destruct (Hframe4 p Hout) as [-> ->]. by rewrite Hm', Hw'. }
  split; [apply map_eq; intros p; apply Hpins|].
  split; [apply map_eq; intros p; apply Hpins|].
  split; congruence.
Qed.

Lemma write_pair_idempotent_witness :
  chip_ok booted_chip /\ i2c_portcount booted_chip = 0 /\
  exists c2 h2 h4,
    run [EvWrite 0x0f; EvWrite 0xa0] booted_chip booted_host = Some (c2, h2) /\
    run [EvConnect 0x55 false; EvWrite 0x0f; EvWrite 0xa0] c2 h2
    = Some (c2, h4) /\
    pin_modes h4 = pin_modes h2 /\ pin_watches h4 = pin_watches h2 /\
    pin_levels h4 = pin_levels h2 /\ i2c_devices h4 = i2c_devices h2.
Proof.
  split; [exact booted_chip_ok|]. split; [reflexivity|].
  apply (write_pair_idempotent booted_chip booted_host 0x0f 0xa0 0x55
           booted_chip_ok).
  reflexivity.
Defined.

(** ** Reading more than two bytes *)

Lemma port_byte_range v idx : 0 <= port_byte v idx < 256.
Proof. unfold port_byte. apply Z.mod_pos_bound. lia. Qed.

Lemma port_bytes_reassemble v :
  0 <= v < 65536 -> port_byte v 0 + 256 * port_byte v 1 = v.
Proof.
  intros Hv. unfold port_byte. change (256 ^ 0) with 1. change (256 ^ 1) with 256.
  rewrite Z.div_1_r.
  assert (0 <= v / 256 < 256).
  { split; [apply Z.div_pos; lia|apply Z.div_lt_upper_bound; lia]. }
  rewrite (Z.mod_small (v / 256)) by done.
  pose proof (Z.div_mod v 256). lia.
Qed.

Lemma read_bytes_cycle n : forall c,
  i2c_portcount c = 0 \/ i2c_portcount c = 1 ->
  exists c' bs,
    read_bytes n c = Some (c', bs) /\ length bs = n /\
    inputValue c' = inputValue c /\
    i2c_portcount c' = (i2c_portcount c + Z.of_nat n) mod 2 /\
    forall k, (k < n)%nat ->
      bs !! k = Some (port_byte (inputValue c)
                                ((i2c_portcount c + Z.of_nat k) mod 2)).
Proof.
  induction n as [|n IH]; intros c Hpc.
  - exists c, []. split; [done|]. split; [done|]. split; [done|].
    split; [destruct Hpc as [-> | ->]; reflexivity|]. intros; lia.
  - destruct (IH (set_i2c_portcount (1 - i2c_portcount c) c)) as
      (c' & bs & Hr & Hlen & Hv & Hidx & Hbs); [cbn; lia|].
    cbn [i2c_portcount inputValue set_i2c_portcount] in Hv, Hidx, Hbs.
    exists c'. eexists. cbn [read_bytes].
    rewrite on_i2c_read_spec by done. cbn [mbind option_bind].
    rewrite Hr. cbn [mbind option_bind]. split; [reflexivity|].
    assert (Hshift : forall m : Z,
              (1 - i2c_portcount c + m) mod 2
              = (i2c_portcount c + (m + 1)) mod 2).
    { intros m. destruct Hpc as [-> | ->].
      - f_equal. lia.
      - replace (1 + (m + 1)) with (1 - 1 + m + 1 * 2) by lia.
        apply eq_sym, Z_mod_plus_full. }
    split; [cbn [length]; lia|]. split; [done|]. split.
    { rewrite Hidx, Hshift. f_equal. lia. }
    intros [|k] Hk.
    + cbn [lookup list_lookup]. unfold port_byte. rewrite Z.add_0_r.
      by destruct Hpc as [-> | ->].
    + cbn [lookup list_lookup]. change (bs !! k = Some (port_byte (inputValue c)
        ((i2c_portcount c + Z.of_nat (S k)) mod 2))).
      rewrite Hbs, Hshift by lia. do 3 f_equal. lia.
Qed.

(** X3.  Within one transaction the bytes read cycle through the two ports:
    read number [k] (from 0) returns byte [(index + k) mod 2] of
    [inputValue], however many bytes are read; each byte is below 256 and,
    for a 16-bit [inputValue], the first two bytes read from index 0 put
    together give it back. *)
Theorem reads_cycle_through_ports c n :
  i2c_portcount c = 0 \/ i2c_portcount c = 1 ->
  exists c' bs,
    read_bytes n c = Some (c', bs) /\ length bs = n /\
    i2c_portcount c' = (i2c_portcount c + Z.of_nat n) mod 2 /\
    (forall k, (k < n)%nat ->
       exists b, bs !! k = Some b /\ 0 <= b < 256 /\
         b = (inputValue c / 256 ^ ((i2c_portcount c + Z.of_nat k) mod 2))
             mod 256) /\
    (i2c_portcount c = 0 -> 0 <= inputValue c < 65536 -> (2 <= n)%nat ->
     exists lo hi, bs !! 0%nat = Some lo /\ bs !! 1%nat = Some hi /\
       lo + 256 * hi = inputValue c).
Proof.
  intros Hpc.
  destruct (read_bytes_cycle n c Hpc) as (c' & bs & Hr & Hlen & _ & Hidx & Hbs).
  exists c', bs. split; [done|]. split; [done|]. split; [done|]. split.
  - intros k Hk. eexists. split; [by apply Hbs|].
    split; [apply port_byte_range|reflexivity].
  - intros H0 Hv Hn. do 2 eexists.
    split; [apply Hbs; lia|]. split; [apply Hbs; lia|].
    rewrite H0. change ((0 + Z.of_nat 0) mod 2) with 0.
    change ((0 + Z.of_nat 1) mod 2) with 1.
    by apply port_bytes_reassemble.
Qed.

Lemma reads_cycle_through_ports_witness :
  (i2c_portcount (set_inputValue 0xbeef booted_chip) = 0 \/
   i2c_portcount (set_inputValue 0xbeef booted_chip) = 1) /\
  exists c' bs,
    read_bytes 5 (set_inputValue 0xbeef booted_chip) = Some (c', bs) /\
    length bs = 5%nat /\
    i2c_portcount c' =
      (i2c_portcount (set_inputValue 0xbeef booted_chip) + Z.of_nat 5) mod 2 /\
    (forall k, (k < 5)%nat ->
       exists b, bs !! k = Some b /\ 0 <= b < 256 /\
         b = (inputValue (set_inputValue 0xbeef booted_chip)
              / 256 ^ ((i2c_portcount (set_inputValue 0xbeef booted_chip)
                        + Z.of_nat k) mod 2)) mod 256) /\
    (i2c_portcount (set_inputValue 0xbeef booted_chip) = 0 ->
     0 <= inputValue (set_inputValue 0xbeef booted_chip) < 65536 ->
     (2 <= 5)%nat ->
     exists lo hi, bs !! 0%nat = Some lo /\ bs !! 1%nat = Some hi /\
       lo + 256 * hi = inputValue (set_inputValue 0xbeef booted_chip)).
Proof.
  split; [by left|].
  apply (reads_cycle_through_ports (set_inputValue 0xbeef booted_chip) 5).
  by left.
Defined.

(** Five reads of 0xbeef from index 0. *)
Example five_reads :
  option_map snd (read_bytes 5 (set_inputValue 0xbeef booted_chip))
  = Some [0xef; 0xbe; 0xef; 0xbe; 0xef].
Proof. vm_compute. reflexivity. Qed.

(** ** The recomputed input value *)

Lemma testbit_0xffff j : 0 <= j < 16 -> Z.testbit 0xffff j = true.
Proof.
  intros Hj. change 65535 with (Z.ones 16). apply Z.ones_spec_low. lia.
Qed.

Lemma u16_range x : 0 <= u16 x < 65536.
Proof. unfold u16. apply Z.mod_pos_bound. lia. Qed.

Lemma sixteen_bits v :
  (forall j, 16 <= j -> Z.testbit v j = false) -> v = u16 v.
Proof.
  intros Hhigh. apply Z.bits_inj'. intros j Hj. destruct (decide (j < 16)).
  - by rewrite u16_testbit by lia.
  - by rewrite u16_testbit_high, Hhigh by lia.
Qed.

(** X4.  [readInputsValue] always yields a 16-bit value that has no bit
    outside [inputMask]: bit [i] is set exactly when line [i] is masked as an
    input and its pin reads high.  With every masked pin high the value is
    the mask itself; with every masked pin low, or with an empty mask, it is
    0. *)
Theorem recomputed_inputs_within_mask c h :
  length (io c) = 16%nat ->
  exists v,
    readInputsValue c h = Some v /\
    0 <= v < 65536 /\
    Z.land v (inputMask c) = v /\
    (forall i, 0 <= i < 16 ->
       Z.testbit v i = Z.testbit (inputMask c) i && line_level c h i) /\
    ((forall i, 0 <= i < 16 -> Z.testbit (inputMask c) i = true ->
        line_level c h i = true) -> v = u16 (inputMask c)) /\
    ((forall i, 0 <= i < 16 -> Z.testbit (inputMask c) i = true ->
        line_level c h i = false) -> v = 0).
Proof.
  intros Hlen.
  destruct (readInputsValue_spec c h Hlen) as (v & Hv & Hbits).
  exists v. split; [done|].
  assert (Hhigh : forall j, 16 <= j -> Z.testbit v j = false).
  { intros j Hj. rewrite Hbits by lia. by rewrite bool_decide_eq_false_2 by lia. }
  split; [rewrite (sixteen_bits v Hhigh); apply u16_range|].
  split.
  { apply Z.bits_inj'. intros j Hj. rewrite Z.land_spec, Hbits by done.
    destruct (bool_decide (j < 16)), (Z.testbit (inputMask c) j),
      (line_level c h j); done. }
  split.
  { intros i Hi. rewrite Hbits by lia. by rewrite bool_decide_eq_true_2 by lia. }
  split.
  - intros Hall. apply Z.bits_inj'. intros j Hj. destruct (decide (j < 16)).
    + rewrite u16_testbit, Hbits, bool_decide_eq_true_2 by lia. cbn [andb].
      destruct (Z.testbit (inputMask c) j) eqn:Hm; [|done].
      by rewrite Hall by (done || lia).
    + by rewrite u16_testbit_high, Hhigh by lia.
  - intros Hall. apply Z.bits_inj'. intros j Hj. rewrite Z.bits_0.
    destruct (decide (j < 16)); [|apply Hhigh; lia].
    rewrite Hbits, bool_decide_eq_true_2 by lia. cbn [andb].
    destruct (Z.testbit (inputMask c) j) eqn:Hm; [|done].
    by rewrite Hall by (done || lia).
Qed.

Lemma recomputed_inputs_within_mask_witness :
  length (io (fst one_input_state)) = 16%nat /\
  exists v,
    readInputsValue (fst one_input_state) (snd one_input_state) = Some v /\
    0 <= v < 65536 /\
    Z.land v (inputMask (fst one_input_state)) = v.
Proof.
  assert (Hlen : length (io (fst one_input_state)) = 16%nat).
  { vm_compute. reflexivity. }
  split; [exact Hlen|].
  destruct (recomputed_inputs_within_mask (fst one_input_state)
              (snd one_input_state) Hlen) as (v & Hv & Hr & Hsub & _).
  exists v. split; [exact Hv|]. split; [exact Hr|exact Hsub].
Defined.

Lemma io_change_spec c h pin value :
  length (io c) = 16%nat ->
  exists v h',
    dispatch (EvIoChange pin value) c h = Some (set_inputValue v c, h', Void) /\
    (forall j, 0 <= j ->
       Z.testbit v j =
       bool_decide (j < 16) && Z.testbit (inputMask c) j
       && line_level c (set_level pin value h) j) /\
    pin_modes h'
    = <[nINT c := if v =? lastReadValue c then INPUT else OUTPUT_LOW]>
        (pin_modes h) /\
    pin_watches h' = pin_watches h /\
    pin_levels h' = pin_levels (set_level pin value h) /\
    i2c_devices h' = i2c_devices h.
Proof.
  intros Hlen.
  destruct (readInputsValue_spec c (set_level pin value h) Hlen) as
    (v & Hv & Hbits).
  exists v. eexists. split.
  { cbn [dispatch]. unfold chip_input_io_change. rewrite Hv.
    cbn [mbind option_bind]. reflexivity. }
  split; [exact Hbits|].
  cbn [inputValue lastReadValue set_inputValue].
  by destruct (v =? lastReadValue c).
Qed.

Lemma connect_read_spec c h addr :
  exists h',
    on_i2c_connect c h addr true
    = (set_lastReadValue (inputValue c) (set_i2c_portcount 0 c), h', true) /\
    pin_modes h' = <[nINT c := INPUT]> (pin_modes h) /\
    pin_watches h' = pin_watches h /\
    pin_levels h' = pin_levels h /\
    i2c_devices h' = i2c_devices h.
Proof.
  eexists. split; [reflexivity|].
  by destruct (negb (addr =? address c)).
Qed.

Lemma low_byte_testbit v k :
  0 <= k < 8 -> Z.testbit (v mod 256) k = Z.testbit v k.
Proof.
  intros Hk. change 256 with (2 ^ 8). apply Z.mod_pow2_bits_low. lia.
Qed.

Lemma high_byte_testbit v k :
  0 <= k < 8 -> Z.testbit ((v / 256) mod 256) k = Z.testbit v (k + 8).
Proof.
  intros Hk. change 256 with (2 ^ 8).
  rewrite Z.mod_pow2_bits_low, Z.div_pow2_bits by lia. done.
Qed.

(** X5.  From pins to bus: after a monitored-line change and a read-type
    connect, the two bytes the master reads carry the pin levels, line [k] in
    bit [k] of the first byte and line [k + 8] in bit [k] of the second,
    with 0 for every line that is not masked as an input; the connect has
    released the interrupt line and stored that same 16-bit value in
    [lastReadValue]. *)
Theorem edge_then_read_returns_levels c h pin value addr :
  chip_ok c ->
  exists c1 h1 c2 lo hi,
    run [EvIoChange pin value; EvConnect addr true] c h = Some (c1, h1) /\
    read_bytes 2 c1 = Some (c2, [lo; hi]) /\
    (forall k, 0 <= k < 8 ->
       Z.testbit lo k =
         Z.testbit (inputMask c) k && line_level c (set_level pin value h) k
       /\
       Z.testbit hi k =
         Z.testbit (inputMask c) (k + 8)
         && line_level c (set_level pin value h) (k + 8)) /\
    0 <= lo < 256 /\ 0 <= hi < 256 /\
    lastReadValue c1 = lo + 256 * hi /\
    int_released c1 h1.
Proof.
  intros [Hio _ _ _ _].
  destruct (io_change_spec c h pin value Hio) as
    (v & h0 & Hd & Hbits & _).
  destruct (connect_read_spec (set_inputValue v c) h0 addr) as
    (h1 & Hc & Hmodes & _).
  assert (Hhigh : forall j, 16 <= j -> Z.testbit v j = false).
  { intros j Hj. rewrite Hbits by lia. by rewrite bool_decide_eq_false_2 by lia. }
  assert (Hrange : 0 <= v < 65536).
  { rewrite (sixteen_bits v Hhigh). apply u16_range. }
  do 2 eexists. exists (set_i2c_portcount 0
    (set_lastReadValue v (set_i2c_portcount 0 (set_inputValue v c)))).
  exists (v mod 256), ((v / 256) mod 256).
  split.
  { cbn [run]. rewrite Hd. cbn [mbind option_bind dispatch]. rewrite Hc.
    reflexivity. }
  split.
  { cbn [read_bytes]. rewrite on_i2c_read_spec by (by left).
    cbn [mbind option_bind]. rewrite on_i2c_read_spec by (by right).
    cbn [mbind option_bind inputValue i2c_portcount set_i2c_portcount
         set_lastReadValue set_inputValue].
    change (256 ^ 0) with 1. change (256 ^ (1 - 0)) with 256.
    rewrite Z.div_1_r. reflexivity. }
  split.
  { intros k Hk. rewrite low_byte_testbit, high_byte_testbit by done.
    rewrite !Hbits by lia. by rewrite !bool_decide_eq_true_2 by lia. }
  split; [apply Z.mod_pos_bound; lia|]. split; [apply Z.mod_pos_bound; lia|].
  split.
  { cbn [lastReadValue set_lastReadValue inputValue set_inputValue
         set_i2c_portcount].
    pose proof (port_bytes_reassemble v Hrange) as Hre. unfold port_byte in Hre.
    change (256 ^ 0) with 1 in Hre. change (256 ^ 1) with 256 in Hre.
    rewrite Z.div_1_r in Hre. by rewrite Hre. }
  unfold int_released. rewrite Hmodes. apply lookup_insert_eq.
Qed.

Lemma edge_then_read_returns_levels_witness :
  chip_ok booted_chip /\
  exists c1 h1 c2 lo hi,
    run [EvIoChange "P12" false; EvConnect 0x22 true] booted_chip booted_host
    = Some (c1, h1) /\
    read_bytes 2 c1 = Some (c2, [lo; hi]) /\
    (forall k, 0 <= k < 8 ->
       Z.testbit lo k =
         Z.testbit (inputMask booted_chip) k
         && line_level booted_chip (set_level "P12" false booted_host) k
       /\
       Z.testbit hi k =
         Z.testbit (inputMask booted_chip) (k + 8)
         && line_level booted_chip (set_level "P12" false booted_host) (k + 8))
    /\
    0 <= lo < 256 /\ 0 <= hi < 256 /\
    lastReadValue c1 = lo + 256 * hi /\
    int_released c1 h1.
Proof.
  split; [exact booted_chip_ok|].
  apply (edge_then_read_returns_levels booted_chip booted_host "P12" false
           0x22).
  exact booted_chip_ok.
Defined.

(** P12 falls after start-up: the master then reads 0xff, 0xfb. *)
Example read_after_p12_falls :
  ('(c, h) ← run [EvIoChange "P12" false; EvConnect 0x22 true]
                 booted_chip booted_host;
   option_map snd (read_bytes 2 c))
  = Some [0xff; 0xfb].
Proof. vm_compute. reflexivity. Qed.

(** ** A change that is undone before it is read *)





(** ** What each callback leaves alone *)

Lemma dispatch_frame e c h :
  chip_ok c ->
  exists c' h' r,
    dispatch e c h = Some (c', h', r) /\
    chip_ok c' /\
    i2c_config c' = i2c_config c /\ i2c_dev c' = i2c_dev c /\
    io_watch_config c' = io_watch_config c /\
    i2c_devices h' = i2c_devices h /\
    (is_io_change e = false -> inputValue c' = inputValue c) /\
    (is_write e = false -> inputMask c' = inputMask c) /\
    (is_addr_change e = false -> address c' = address c) /\
    (moves_index e = false -> i2c_portcount c' = i2c_portcount c) /\
    (is_write e = false ->
     pin_watches h' = pin_watches h /\
     forall p, p <> nINT c -> pin_modes h' !! p = pin_modes h !! p) /\
    (is_write e = true ->
     forall p,
       (forall k, 0 <= k < 8 ->
          array_get (io c) (k + i2c_portcount c * 8) <> Some p) ->
       pin_modes h' !! p = pin_modes h !! p /\
       pin_watches h' !! p = pin_watches h !! p).
Proof.
  intros Hok. pose proof Hok as [Hio Hab Hpc Hnd Hfresh].
  destruct e as [addr is_read| |data| |pin value|pin value]; cbn [dispatch].
  - unfold on_i2c_connect.
    destruct is_read, (negb (addr =? address c));
      do 3 eexists; (split; [reflexivity|]);
      (split; [constructor; cbn; auto|]); cbn;
      (split_and!; try done;
       try (intros _; split; [done|]; intros p Hp;
            rewrite ?lookup_insert_ne; auto)).
  - rewrite on_i2c_read_spec by done. cbn [mbind option_bind].
    do 3 eexists. split; [reflexivity|].
    split; [constructor; cbn; auto; lia|]. cbn. by split_and!.
  - destruct (on_i2c_write_spec c h data Hio Hnd Hpc) as
      (m & h' & Hw & _ & _ & Hframe & _ & Hd & _).
    rewrite Hw. cbn [mbind option_bind].
    do 3 eexists. split; [reflexivity|].
    split; [constructor; cbn; auto; lia|]. cbn. split_and!; try done.
  - do 3 eexists. split; [reflexivity|]. split; [done|].
    unfold on_i2c_disconnect. by split_and!.
  - unfold chip_addr_change.
    destruct (read_address_spec c (set_level pin value h) Hab) as
      (p0 & p1 & p2 & _ & Hra).
    rewrite Hra. cbn [mbind option_bind].
    do 3 eexists. split; [reflexivity|]. split; [by constructor|].
    cbn. by split_and!.
  - destruct (io_change_spec c h pin value Hio) as
      (v & h' & Hd & _ & Hm & Hw & _ & Hdev).
    cbn [dispatch] in Hd. rewrite Hd. do 3 eexists. split; [reflexivity|].
    split; [by constructor|]. cbn. split_and!; try done.
    intros _. split; [done|]. intros p Hp.
    by rewrite Hm, lookup_insert_ne.
Qed.

Lemma run_frame es : forall c h,
  chip_ok c ->
  exists c' h',
    run es c h = Some (c', h') /\ chip_ok c' /\
    i2c_config c' = i2c_config c /\ i2c_dev c' = i2c_dev c /\
    io_watch_config c' = io_watch_config c /\
    i2c_devices h' = i2c_devices h.
Proof.
  induction es as [|e es IH]; intros c h Hok.
  - exists c, h. by split_and!.
  - destruct (dispatch_frame e c h Hok) as
      (c1 & h1 & r & Hd & Hok1 & Hcfg & Hdev & Hw & Hdevs & _).
    destruct (IH c1 h1 Hok1) as (c' & h' & Hr & Hok' & Hcfg' & Hdev' & Hw' & Hdevs').
    exists c', h'. cbn [run]. rewrite Hd. cbn [mbind option_bind].
    split; [done|]. split; [done|]. split_and!; congruence.
Qed.

(** X7.  No callback registers the device again or touches the I2C
    configuration block: after any sequence of callbacks the list of
    registered devices, [i2c_config] (with the address the device was
    registered under) and [i2c_dev] are what they were.  An address-line
    change stores the new address in [address] only, so [address] and the
    registered [i2c_config.address] part company as soon as the select pins
    encode another value. *)
Theorem registration_is_never_updated c h es pin value :
  chip_ok c ->
  (exists c' h',
     run es c h = Some (c', h') /\
     i2c_devices h' = i2c_devices h /\
     i2c_config c' = i2c_config c /\ i2c_dev c' = i2c_dev c) /\
  (exists c' h' p0 p1 p2,
     dispatch (EvAddrChange pin value) c h = Some (c', h', Void) /\
     addressBits c = [p0; p1; p2] /\
     address c' =
       address_of_levels (pin_read p0 (set_level pin value h))
                         (pin_read p1 (set_level pin value h))
                         (pin_read p2 (set_level pin value h)) /\
     cfg_address (i2c_config c') = cfg_address (i2c_config c) /\
     i2c_devices h' = i2c_devices h).
Proof.
  intros Hok. split.
  - destruct (run_frame es c h Hok) as (c' & h' & Hr & _ & Hcfg & Hdev & _ & Hd).
    by exists c', h'.
  - destruct Hok as [_ Hab _ _ _].
    destruct (read_address_spec c (set_level pin value h) Hab) as
      (p0 & p1 & p2 & Hbits & Hra).
    do 2 eexists. exists p0, p1, p2. split.
    { cbn [dispatch]. unfold chip_addr_change. rewrite Hra.
      cbn [mbind option_bind]. reflexivity. }
    by split_and!.
Qed.

Lemma registration_is_never_updated_witness :
  chip_ok booted_chip /\
  exists c' h' p0 p1 p2,
    dispatch (EvAddrChange "A0" true) booted_chip booted_host
    = Some (c', h', Void) /\
    addressBits booted_chip = [p0; p1; p2] /\
    address c' =
      address_of_levels (pin_read p0 (set_level "A0" true booted_host))
                        (pin_read p1 (set_level "A0" true booted_host))
                        (pin_read p2 (set_level "A0" true booted_host)) /\
    cfg_address (i2c_config c') = cfg_address (i2c_config booted_chip) /\
    i2c_devices h' = i2c_devices booted_host.
Proof.
  split; [exact booted_chip_ok|].
  apply (registration_is_never_updated booted_chip booted_host [] "A0" true).
  exact booted_chip_ok.
Defined.

(** After A0 rises the chip answers to 0x23 in [address] while the
    registered configuration still says 0x22. *)
Example address_and_registration_diverge :
  option_map
    (fun r => (address (fst (fst r)), cfg_address (i2c_config (fst (fst r))),
               map cfg_address (i2c_devices (snd (fst r)))))
    (dispatch (EvAddrChange "A0" true) booted_chip booted_host)
  = Some (0x23, 0x22, [0x22]).
Proof. vm_compute. reflexivity. Qed.

(** X8.  Each state word has one writer: [inputValue] is touched by the
    monitored-line callback only, [inputMask] by the bus write only,
    [address] by the address-line callback only, and the byte index by
    connect, read and write only.  Every other callback runs to completion
    and leaves the word as it was. *)
Theorem each_word_has_one_writer c h e :
  chip_ok c ->
  exists c' h' r,
    dispatch e c h = Some (c', h', r) /\
    (is_io_change e = false -> inputValue c' = inputValue c) /\
    (is_write e = false -> inputMask c' = inputMask c) /\
    (is_addr_change e = false -> address c' = address c) /\
    (moves_index e = false -> i2c_portcount c' = i2c_portcount c).
Proof.
  intros Hok.
  destruct (dispatch_frame e c h Hok) as
    (c' & h' & r & Hd & _ & _ & _ & _ & _ & Hv & Hm & Ha & Hi & _).
  by exists c', h', r.
Qed.

Lemma each_word_has_one_writer_witness :
  chip_ok (fst one_input_state) /\
  exists c' h' r,
    dispatch (EvWrite 0xff) (fst one_input_state) (snd one_input_state)
    = Some (c', h', r) /\
    (is_io_change (EvWrite 0xff) = false ->
     inputValue c' = inputValue (fst one_input_state)) /\
    (is_write (EvWrite 0xff) = false ->
     inputMask c' = inputMask (fst one_input_state)) /\
    (is_addr_change (EvWrite 0xff) = false ->
     address c' = address (fst one_input_state)) /\
    (moves_index (EvWrite 0xff) = false ->
     i2c_portcount c' = i2c_portcount (fst one_input_state)).
Proof.
  split; [exact one_input_chip_ok|].
  apply (each_word_has_one_writer (fst one_input_state) (snd one_input_state)
           (EvWrite 0xff)).
  exact one_input_chip_ok.
Defined.

(** X9.  Which pins a callback may reconfigure.  A bus write changes mode
    and watch of the eight pins of the addressed port and of no other pin:
    the other port, the address pins, SCL, SDA and the interrupt pin keep
    theirs.  Every other callback leaves all watches alone and changes the
    mode of no pin but the interrupt pin. *)
Theorem pins_a_callback_may_touch c h e :
  chip_ok c ->
  exists c' h' r,
    dispatch e c h = Some (c', h', r) /\
    (is_write e = true ->
     forall p,
       (forall k, 0 <= k < 8 ->
          array_get (io c) (k + i2c_portcount c * 8) <> Some p) ->
       pin_modes h' !! p = pin_modes h !! p /\
       pin_watches h' !! p = pin_watches h !! p) /\
    (is_write e = true ->
     forall p, p ∉ io c ->
       pin_modes h' !! p = pin_modes h !! p /\
       pin_watches h' !! p = pin_watches h !! p) /\
    (is_write e = false ->
     pin_watches h' = pin_watches h /\
     forall p, p <> nINT c -> pin_modes h' !! p = pin_modes h !! p).
Proof.
  intros Hok.
  destruct (dispatch_frame e c h Hok) as
    (c' & h' & r & Hd & _ & _ & _ & _ & _ & _ & _ & _ & _ & Hother & Hwrite).
  exists c', h', r. split; [done|]. split; [done|]. split; [|done].
  intros Hw p Hp. apply (Hwrite Hw). intros k Hk Hget.
  by apply Hp, (array_get_elem_of _ _ _ Hget).
Qed.

Lemma pins_a_callback_may_touch_witness :
  chip_ok booted_chip /\
  exists c' h' r,
    dispatch (EvWrite 0x00) booted_chip booted_host = Some (c', h', r) /\
    (is_write (EvWrite 0x00) = true ->
     forall p,
       (forall k, 0 <= k < 8 ->
          array_get (io booted_chip) (k + i2c_portcount booted_chip * 8)
          <> Some p) ->
       pin_modes h' !! p = pin_modes booted_host !! p /\
       pin_watches h' !! p = pin_watches booted_host !! p) /\
    (is_write (EvWrite 0x00) = true ->
     forall p, p ∉ io booted_chip ->
       pin_modes h' !! p = pin_modes booted_host !! p /\
       pin_watches h' !! p = pin_watches booted_host !! p) /\
    (is_write (EvWrite 0x00) = false ->
     pin_watches h' = pin_watches booted_host /\
     forall p, p <> nINT booted_chip ->
       pin_modes h' !! p = pin_modes booted_host !! p).
Proof.
  split; [exact booted_chip_ok|].
  apply (pins_a_callback_may_touch booted_chip booted_host (EvWrite 0x00)).
  exact booted_chip_ok.
Defined.

(** ** The pins after start-up *)

Lemma create_watched_spec cfg mode h (name : pin_t) :
  pin_modes (create_watched cfg mode h name) = <[name := mode]> (pin_modes h) /\
  (pin_watches h !! name = None ->
   pin_watches (create_watched cfg mode h name)
   = <[name := cfg]> (pin_watches h)) /\
  (forall q, q <> name ->
     pin_watches (create_watched cfg mode h name) !! q = pin_watches h !! q) /\
  pin_levels (create_watched cfg mode h name) = pin_levels h /\
  i2c_devices (create_watched cfg mode h name) = i2c_devices h /\
  stdout (create_watched cfg mode h name) = stdout h.
Proof.
  unfold create_watched, pin_init. cbn [snd].
  rewrite pin_watch_modes, pin_watch_levels, pin_watch_devices,
    pin_watch_stdout.
  split; [reflexivity|].
  assert (Hcases :
    pin_watches (snd (pin_watch name cfg (with_modes <[name:=mode]> h)))
    = match pin_watches h !! name with
      | Some _ => pin_watches h
      | None => <[name:=cfg]> (pin_watches h)
      end).
  { unfold pin_watch.
    change (pin_watches (with_modes <[name:=mode]> h)) with (pin_watches h).
    destruct (_ !! name); reflexivity. }
  unfold pin_t in *. rewrite Hcases. split; [by intros ->|]. split; [|done].
  intros q Hq. destruct (_ !! name); [done|].
  by rewrite lookup_insert_ne.
Qed.

Lemma fold_create_watched cfg mode names : forall h,
  NoDup names ->
  (forall n, n ∈ names ->
     pin_modes (foldl (create_watched cfg mode) h names) !! n = Some mode /\
     (pin_watches h !! n = None ->
      pin_watches (foldl (create_watched cfg mode) h names) !! n = Some cfg)) /\
  (forall q, q ∉ names ->
     pin_modes (foldl (create_watched cfg mode) h names) !! q
     = pin_modes h !! q /\
     pin_watches (foldl (create_watched cfg mode) h names) !! q
     = pin_watches h !! q) /\
  pin_levels (foldl (create_watched cfg mode) h names) = pin_levels h /\
  i2c_devices (foldl (create_watched cfg mode) h names) = i2c_devices h /\
  stdout (foldl (create_watched cfg mode) h names) = stdout h.
Proof.
  induction names as [|x names IH]; intros h Hnd.
  - cbn [foldl]. split; [intros n Hn; by apply not_elem_of_nil in Hn|].
    by split_and!.
  - apply NoDup_cons in Hnd as [Hx Hnd]. cbn [foldl].
    destruct (create_watched_spec cfg mode h x) as
      (Hm1 & Hw1 & Hwq1 & Hl1 & Hd1 & Ho1).
    destruct (IH (create_watched cfg mode h x) Hnd) as
      (Hin & Hout & Hl & Hd & Ho).
    split.
    { intros n [->|Hn]%elem_of_cons.
      - destruct (Hout x Hx) as [-> ->]. split.
        + rewrite Hm1. apply lookup_insert_eq.
        + intros Hnone. rewrite (Hw1 Hnone). apply lookup_insert_eq.
      - destruct (Hin n Hn) as [Hmode Hwatch]. split; [done|].
        intros Hnone. apply Hwatch. rewrite Hwq1; [done|].
        intros ->. contradiction. }
    split.
    { intros q Hq. apply not_elem_of_cons in Hq as [Hqx Hq].
      destruct (Hout q Hq) as [-> ->]. split.
      - rewrite Hm1. by apply lookup_insert_ne.
      - by apply Hwq1. }
    split_and!; congruence.
Qed.

Lemma init_addr_loop_host c h :
  length (addressBits c) = 3%nat ->
  for_loop 3 0 init_addr_pin (c, h)
  = Some (set_addressBits addrPinNames c,
          foldl (create_watched (WatchConfig BOTH cb_chip_addr_change) INPUT)
                h addrPinNames).
Proof.
  intros Hlen. destruct c as [a ab n i m v l d cfg pc w]. cbn in Hlen.
  destruct ab as [|a0 [|a1 [|a2 [|? ?]]]]; try discriminate.
  cbn [for_loop]. unfold init_addr_pin.
  cbn - [pin_watch pin_mode with_modes]. reflexivity.
Qed.

Lemma init_io_pin_host c h i :
  length (io c) = 16%nat -> 0 <= i < 16 ->
  exists name,
    ioPinNames !! Z.to_nat i = Some name /\
    init_io_pin i (c, h)
    = Some (set_io (<[Z.to_nat i := name]> (io c)) c,
            create_watched (io_watch_config c) INPUT_PULLUP h name).
Proof.
  intros Hlen Hi.
  destruct (array_get_Some ioPinNames i) as [name Hname]; [cbn; lia|].
  exists name. split.
  { unfold array_get in Hname. by rewrite decide_True in Hname by lia. }
  unfold init_io_pin. rewrite Hname. cbn [mbind option_bind].
  unfold pin_init at 1, array_set.
  rewrite decide_True by lia. cbn [mbind option_bind io set_io].
  unfold array_get at 1. rewrite decide_True by lia.
  rewrite list_lookup_insert_eq by lia. cbn [mbind option_bind].
  reflexivity.
Qed.

Lemma init_io_loop_host_gen n : forall i c h,
  length (io c) = 16%nat -> 0 <= i -> i + Z.of_nat n <= 16 ->
  exists l,
    for_loop n i init_io_pin (c, h)
    = Some (set_io l c,
            foldl (create_watched (io_watch_config c) INPUT_PULLUP) h
                  (take n (drop (Z.to_nat i) ioPinNames))) /\
    length l = 16%nat.
Proof.
  induction n as [|n IH]; intros i c h Hlen Hi Hn.
  - exists (io c). split; [by destruct c|done].
  - destruct (init_io_pin_host c h i Hlen) as (name & Hname & Hstep); [lia|].
    destruct (IH (i + 1) (set_io (<[Z.to_nat i := name]> (io c)) c)
                (create_watched (io_watch_config c) INPUT_PULLUP h name)) as
      (l & Hloop & Hl); [cbn [io set_io]; by rewrite length_insert|lia|lia|].
    exists l. split; [|done].
    cbn [for_loop]. rewrite Hstep, bind_Some, Hloop.
    rewrite (drop_S _ _ _ Hname). cbn [take foldl].
    replace (Z.to_nat (i + 1)) with (S (Z.to_nat i)) by lia.
    reflexivity.
Qed.

Lemma Some_pair_eq {A B} (a a' : A) (b b' : B) :
  a = a' -> b = b' -> Some (a, b) = Some (a', b').
Proof. by intros -> ->. Qed.

Lemma Some_pair_snd {A B} (a a' : A) (b b' : B) :
  Some (a, b) = Some (a', b') -> b = b'.
Proof. by intros [= _ ->]. Qed.

Lemma init_io_loop_host c h :
  length (io c) = 16%nat ->
  for_loop 16 0 init_io_pin (c, h)
  = Some (set_io ioPinNames c,
          foldl (create_watched (io_watch_config c) INPUT_PULLUP) h ioPinNames).
Proof.
  intros Hlen.
  destruct (init_io_loop c h Hlen) as (h' & Hloop & _).
  destruct (init_io_loop_host_gen 16 0 c h Hlen) as (l & Hhost & _);
    [lia|lia|].
  rewrite Hloop in Hhost. apply Some_pair_snd in Hhost.
  rewrite Hloop, Hhost. reflexivity.
Qed.

Lemma NoDup_addrPinNames : NoDup addrPinNames.
Proof. refine (bool_decide_unpack _ _). by vm_compute. Qed.

Lemma NoDup_ioPinNames : NoDup ioPinNames.
Proof. refine (bool_decide_unpack _ _). by vm_compute. Qed.

Lemma chip_init_host mem h :
  sizes_ok mem ->
  chip_init mem h = Some (initial_chip mem h, initial_host mem h).
Proof.
  intros [Hio Hab]. unfold chip_init, initialize_state.
  unfold pin_init at 1 2 3.
  change (Z.to_nat NUM_ADDR_BITS) with 3%nat.
  change (Z.to_nat NUM_GPIO) with 16%nat.
  rewrite init_addr_loop_host by exact Hab. rewrite bind_Some. cbv beta iota.
  rewrite init_io_loop_host by exact Hio. rewrite bind_Some. cbv beta iota.
  match goal with
  | |- context [read_address ?c ?h0] =>
      destruct (read_address_spec c h0) as (p0 & p1 & p2 & Hps & Heq3);
      [reflexivity|]
  end.
  rewrite Heq3. cbn in Hps. injection Hps as <- <- <-.
  rewrite bind_Some. cbv beta iota. unfold pin_read.
  set (h3 := with_modes <["nINT":=INPUT]>
               (with_modes <["SDA":=INPUT_PULLUP]>
                  (with_modes <["SCL":=INPUT_PULLUP]> h))).
  destruct (fold_create_watched
              (WatchConfig BOTH cb_chip_addr_change) INPUT addrPinNames h3
              NoDup_addrPinNames) as (_ & _ & Hl1 & Hd1 & _).
  set (h4 := foldl (create_watched (WatchConfig BOTH cb_chip_addr_change)
                      INPUT) h3 addrPinNames) in *.
  destruct (fold_create_watched
              (WatchConfig BOTH cb_chip_input_io_change) INPUT_PULLUP
              ioPinNames h4 NoDup_ioPinNames) as (_ & _ & Hl2 & Hd2 & _).
  cbn [io_watch_config set_addressBits set_nINT set_i2c_config
       set_io_watch_config set_io set_inputMask set_address].
  set (h5 := foldl (create_watched (WatchConfig BOTH cb_chip_input_io_change)
                      INPUT_PULLUP) h4 ioPinNames) in *.
  assert (Hl3 : pin_levels h3 = pin_levels h) by reflexivity.
  assert (Hd3 : i2c_devices h3 = i2c_devices h) by reflexivity.
  rewrite Hl2, Hl1, Hl3. unfold i2c_init, printf.
  cbn [snd i2c_devices].
  rewrite Hd2, Hd1, Hd3.
  apply Some_pair_eq.
  - unfold initial_chip.
    cbv [set_address set_addressBits set_nINT set_io set_inputMask
         set_inputValue set_lastReadValue set_i2c_dev set_i2c_config
         set_i2c_portcount set_io_watch_config
         address addressBits nINT io inputMask inputValue lastReadValue
         i2c_dev i2c_config i2c_portcount io_watch_config
         cfg_address scl sda connect read write disconnect].
    reflexivity.
  - unfold initial_host, initial_chip, interruptFlagOff, pin_mode, i2c_init,
      printf.
    cbv [set_address set_addressBits set_nINT set_io set_inputMask
         set_inputValue set_lastReadValue set_i2c_dev set_i2c_config
         set_i2c_portcount set_io_watch_config
         address addressBits nINT io inputMask inputValue lastReadValue
         i2c_dev i2c_config i2c_portcount io_watch_config
         cfg_address scl sda connect read write disconnect snd].
    change (foldl _ (foldl _ _ addrPinNames) ioPinNames) with h5.
    rewrite Hd2, Hd1, Hd3. reflexivity.
Qed.

Lemma io_names_apart :
  Forall (fun n => (n ∉ addrPinNames) /\ n <> "nINT") ioPinNames.
Proof. refine (bool_decide_unpack _ _). by vm_compute. Qed.

Lemma addr_names_apart :
  Forall (fun n => (n ∉ ioPinNames) /\ n <> "nINT") addrPinNames.
Proof. refine (bool_decide_unpack _ _). by vm_compute. Qed.

Lemma bus_names_apart :
  Forall (fun n => (n ∉ ioPinNames) /\ (n ∉ addrPinNames))
         ["SCL"; "SDA"; "nINT"].
Proof. refine (bool_decide_unpack _ _). by vm_compute. Qed.

Lemma initial_host_fields mem h :
  let h5 :=
    foldl (create_watched (WatchConfig BOTH cb_chip_input_io_change)
             INPUT_PULLUP)
      (foldl (create_watched (WatchConfig BOTH cb_chip_addr_change) INPUT)
         (pin_mode "nINT" INPUT
            (pin_mode "SDA" INPUT_PULLUP (pin_mode "SCL" INPUT_PULLUP h)))
         addrPinNames)
      ioPinNames in
  pin_modes (initial_host mem h) = <["nINT":=INPUT]> (pin_modes h5) /\
  pin_watches (initial_host mem h) = pin_watches h5 /\
  i2c_devices (initial_host mem h)
  = i2c_devices h5 ++ [i2c_config (initial_chip mem h)] /\
  stdout (initial_host mem h)
  = (stdout h5 ++
     [PrintAddress (Z.b2z (pin_levels h "A0") + 2 * Z.b2z (pin_levels h "A1")
                    + 4 * Z.b2z (pin_levels h "A2"))
                   (address (initial_chip mem h))]) ++
    [PrintI2cInitialized (address (initial_chip mem h))].
Proof.
  intros h5. unfold initial_host.
  cbv [initial_chip io_watch_config nINT address i2c_config interruptFlagOff].
  change (foldl _ (foldl _ _ addrPinNames) ioPinNames) with h5.
  clearbody h5. split_and!; reflexivity.
Qed.

Lemma initial_host_pins mem h :
  pin_watches h = ∅ ->
  (forall n, n ∈ ioPinNames ->
     pin_modes (initial_host mem h) !! n = Some INPUT_PULLUP /\
     pin_watches (initial_host mem h) !! n
     = Some (WatchConfig BOTH cb_chip_input_io_change)) /\
  (forall n, n ∈ addrPinNames ->
     pin_modes (initial_host mem h) !! n = Some INPUT /\
     pin_watches (initial_host mem h) !! n
     = Some (WatchConfig BOTH cb_chip_addr_change)) /\
  pin_modes (initial_host mem h) !! "SCL" = Some INPUT_PULLUP /\
  pin_modes (initial_host mem h) !! "SDA" = Some INPUT_PULLUP /\
  pin_modes (initial_host mem h) !! "nINT" = Some INPUT /\
  pin_watches (initial_host mem h) !! "nINT" = None /\
  i2c_devices (initial_host mem h)
  = i2c_devices h ++ [i2c_config (initial_chip mem h)] /\
  stdout (initial_host mem h)
  = stdout h ++
    [PrintAddress (Z.b2z (pin_levels h "A0") + 2 * Z.b2z (pin_levels h "A1")
                   + 4 * Z.b2z (pin_levels h "A2"))
                  (address (initial_chip mem h));
     PrintI2cInitialized (address (initial_chip mem h))].
Proof.
  intros Hempty.
  set (h3 := pin_mode "nINT" INPUT
               (pin_mode "SDA" INPUT_PULLUP (pin_mode "SCL" INPUT_PULLUP h))).
  set (h4 := foldl (create_watched (WatchConfig BOTH cb_chip_addr_change)
                      INPUT) h3 addrPinNames).
  set (h5 := foldl (create_watched (WatchConfig BOTH cb_chip_input_io_change)
                      INPUT_PULLUP) h4 ioPinNames).
  destruct (fold_create_watched
              (WatchConfig BOTH cb_chip_addr_change) INPUT addrPinNames h3
              NoDup_addrPinNames) as (Hin1 & Hout1 & _ & Hd1 & Ho1).
  destruct (fold_create_watched
              (WatchConfig BOTH cb_chip_input_io_change) INPUT_PULLUP
              ioPinNames h4 NoDup_ioPinNames) as (Hin2 & Hout2 & _ & Hd2 & Ho2).
  fold h4 in Hin1, Hout1, Hd1, Ho1. fold h5 in Hin2, Hout2, Hd2, Ho2.
  destruct (initial_host_fields mem h) as (Hm & Hw & Hdev & Hout5).
  fold h3 in Hm, Hw, Hdev, Hout5. fold h4 in Hm, Hw, Hdev, Hout5.
  fold h5 in Hm, Hw, Hdev, Hout5.
  assert (Hw3 : forall n : pin_t, pin_watches h3 !! n = None).
  { intros n. change (pin_watches h3) with (pin_watches h).
    rewrite Hempty. apply lookup_empty. }
  assert (Hm3 : pin_modes h3
                = <["nINT":=INPUT]> (<["SDA":=INPUT_PULLUP]>
                    (<["SCL":=INPUT_PULLUP]> (pin_modes h)))) by reflexivity.
  pose proof (proj1 (Forall_forall _ _) io_names_apart) as Hio.
  pose proof (proj1 (Forall_forall _ _) addr_names_apart) as Haddr.
  pose proof (proj1 (Forall_forall _ _) bus_names_apart) as Hbus.
  rewrite Hm, Hw. split.
  { intros n Hn. destruct (Hio n Hn) as [Hna Hnn].
    destruct (Hin2 n Hn) as [Hmode Hwatch].
    rewrite lookup_insert_ne by done. split; [done|].
    apply Hwatch. destruct (Hout1 n Hna) as [_ ->]. apply Hw3. }
  split.
  { intros n Hn. destruct (Haddr n Hn) as [Hni Hnn].
    destruct (Hin1 n Hn) as [Hmode Hwatch].
    rewrite lookup_insert_ne by done.
    destruct (Hout2 n Hni) as [-> ->]. split; [done|].
    apply Hwatch, Hw3. }
  assert (Hout : forall n : string, n ∈ ["SCL"; "SDA"; "nINT"] ->
            pin_modes h5 !! n = pin_modes h3 !! n /\
            pin_watches h5 !! n = None).
  { intros n Hn. destruct (Hbus n Hn) as [Hni Hna].
    destruct (Hout2 n Hni) as [-> ->]. destruct (Hout1 n Hna) as [-> ->].
    split; [done|apply Hw3]. }
  split.
  { rewrite lookup_insert_ne by done.
    destruct (Hout "SCL") as [-> _]; [repeat constructor|].
    rewrite Hm3, !lookup_insert_ne by done. apply lookup_insert_eq. }
  split.
  { rewrite lookup_insert_ne by done.
    destruct (Hout "SDA") as [-> _]; [repeat constructor|].
    rewrite Hm3, lookup_insert_ne by done. apply lookup_insert_eq. }
  split; [apply lookup_insert_eq|].
  split; [apply Hout; repeat constructor|].
  split.
  - by rewrite Hdev, Hd2, Hd1.
  - rewrite Hout5, Ho2, Ho1, <- app_assoc. reflexivity.
Qed.

(** X10.  Start-up on a simulator that has no watches yet leaves the pins
    and the mask in agreement: all sixteen I/O lines are pulled-up inputs
    with the monitored-line watch, matching the mask 0xFFFF; the three
    address pins are plain inputs with the address watch; SCL and SDA are
    pulled-up inputs; the interrupt pin is a floating input without a watch.
    Exactly one device is registered, under the address read from the select
    pins, and two lines are printed. *)
Theorem pins_after_chip_init mem h :
  sizes_ok mem -> pin_watches h = ∅ ->
  exists c h',
    chip_init mem h = Some (c, h') /\
    (forall i, 0 <= i < 16 -> monitored c h' i) /\
    mask_matches_modes c h' /\
    (forall p, p ∈ addressBits c ->
       pin_modes h' !! p = Some INPUT /\
       pin_watches h' !! p = Some (WatchConfig BOTH cb_chip_addr_change)) /\
    pin_modes h' !! scl (i2c_config c) = Some INPUT_PULLUP /\
    pin_modes h' !! sda (i2c_config c) = Some INPUT_PULLUP /\
    int_released c h' /\ pin_watches h' !! nINT c = None /\
    i2c_devices h' = i2c_devices h ++ [i2c_config c] /\
    cfg_address (i2c_config c) = address c /\
    i2c_dev c = Z.of_nat (length (i2c_devices h)) /\
    stdout h' = stdout h ++
      [PrintAddress (address c - I2C_BASE_ADDRESS) (address c);
       PrintI2cInitialized (address c)].
Proof.
  intros Hsz Hempty.
  destruct (initial_host_pins mem h Hempty) as
    (Hio & Haddr & Hscl & Hsda & Hint & Hintw & Hdev & Hout).
  exists (initial_chip mem h), (initial_host mem h).
  split; [by apply chip_init_host|].
  assert (Hmon : forall i, 0 <= i < 16 ->
            monitored (initial_chip mem h) (initial_host mem h) i).
  { intros i Hi. unfold monitored. cbn [io initial_chip io_watch_config].
    destruct (array_get_Some (A:=pin_t) ioPinNames i) as [name Hname];
      [cbn; lia|].
    rewrite Hname. apply Hio. by apply (array_get_elem_of _ _ _ Hname). }
  split; [exact Hmon|]. split.
  { intros i Hi. cbn [inputMask initial_chip]. rewrite testbit_0xffff by done.
    split; split; try done.
    - intros _. by apply Hmon.
    - intros Hd. by destruct (monitored_not_driven_low _ _ _ (Hmon i Hi)). }
  split; [exact Haddr|]. split; [exact Hscl|]. split; [exact Hsda|].
  split; [exact Hint|]. split; [exact Hintw|]. split; [exact Hdev|].
  split; [reflexivity|]. split; [reflexivity|].
  rewrite Hout. cbn [address initial_chip].
  pose proof (address_of_levels_bits (pin_levels h "A0") (pin_levels h "A1")
                (pin_levels h "A2")) as (_ & _ & _ & _ & Hsum).
  do 3 f_equal. lia.
Qed.

Lemma pins_after_chip_init_witness :
  sizes_ok (stale_mem 0x1234) /\ pin_watches (sim ["A1"]) = ∅ /\
  exists c h',
    chip_init (stale_mem 0x1234) (sim ["A1"]) = Some (c, h') /\
    (forall i, 0 <= i < 16 -> monitored c h' i) /\
    mask_matches_modes c h' /\
    (forall p, p ∈ addressBits c ->
       pin_modes h' !! p = Some INPUT /\
       pin_watches h' !! p = Some (WatchConfig BOTH cb_chip_addr_change)) /\
    pin_modes h' !! scl (i2c_config c) = Some INPUT_PULLUP /\
    pin_modes h' !! sda (i2c_config c) = Some INPUT_PULLUP /\
    int_released c h' /\ pin_watches h' !! nINT c = None /\
    i2c_devices h' = i2c_devices (sim ["A1"]) ++ [i2c_config c] /\
    cfg_address (i2c_config c) = address c /\
    i2c_dev c = Z.of_nat (length (i2c_devices (sim ["A1"]))) /\
    stdout h' = stdout (sim ["A1"]) ++
      [PrintAddress (address c - I2C_BASE_ADDRESS) (address c);
       PrintI2cInitialized (address c)].
Proof.
  assert (Hsz : sizes_ok (stale_mem 0x1234)) by (split; reflexivity).
  split; [exact Hsz|]. split; [reflexivity|].
  apply (pins_after_chip_init (stale_mem 0x1234) (sim ["A1"]) Hsz).
  reflexivity.
Defined.

(** A pin that already carries a watch keeps it: [pin_watch] is refused and
    the line is not monitored by this chip. *)
Example init_on_a_watched_pin :
  option_map
    (fun s => pin_watches (snd s) !! "P00")
    (chip_init (stale_mem 0)
       (Host ∅ {["P00" := WatchConfig RISING cb_chip_addr_change]}
             (fun _ => true) [] []))
  = Some (Some (WatchConfig RISING cb_chip_addr_change)).
Proof. vm_compute. reflexivity. Qed.

(** ** Transactions *)

(** X11.  Every transaction starts at port 0, whatever came before: after
    any sequence of callbacks followed by a connect, the first byte read is
    the low byte of [inputValue], and the first byte written clears the mask
    and configures lines 0-7 from its bits, leaving mask bits 8-15 clear.  A
    transaction cut short after an odd number of bytes does not shift the
    next one. *)
Theorem transactions_start_at_port_0 c h es addr is_read d :
  chip_ok c ->
  exists c1 h1 c2 h2,
    run es c h = Some (c1, h1) /\
    on_i2c_connect c1 h1 addr is_read = (c2, h2, true) /\
    i2c_portcount c2 = 0 /\
    (exists c3, on_i2c_read c2 = Some (c3, inputValue c2 mod 256) /\
                i2c_portcount c3 = 1) /\
    (exists c3 h3,
       on_i2c_write c2 h2 d = Some (c3, h3, true) /\
       i2c_portcount c3 = 1 /\
       (forall k, 0 <= k < 8 ->
          Z.testbit (inputMask c3) k = Z.testbit d k /\
          if Z.testbit d k then monitored c3 h3 k else driven_low c3 h3 k) /\
       (forall j, 8 <= j < 16 -> Z.testbit (inputMask c3) j = false)).
Proof.
  intros Hok.
  destruct (run_spec es c h Hok) as (c1 & h1 & Hrun & Hok1 & _).
  destruct (dispatch_spec (EvConnect addr is_read) c1 h1 Hok1) as
    (c2 & h2 & r & Hd & Hok2 & _).
  assert (Hc : on_i2c_connect c1 h1 addr is_read = (c2, h2, true)
               /\ i2c_portcount c2 = 0).
  { cbn [dispatch] in Hd. unfold on_i2c_connect in *.
    destruct is_read; injection Hd as <- <- _; by split. }
  destruct Hc as [Hc H0].
  exists c1, h1, c2, h2. split; [done|]. split; [done|]. split; [done|].
  split.
  { eexists. rewrite on_i2c_read_spec by (by left). rewrite H0.
    change (256 ^ 0) with 1. rewrite Z.div_1_r. split; reflexivity. }
  destruct (on_i2c_write_lines c2 h2 d Hok2) as
    (c3 & h3 & Hw & _ & Hpc3 & _ & _ & Hin & Hout & Hlines & _).
  unfold in_port, mask_before_write in *. rewrite H0 in *.
  cbn [Z.eqb] in Hin, Hout.
  exists c3, h3. split; [done|]. split; [done|]. split.
  - intros k Hk. split.
    + rewrite Hin, Z.bits_0 by lia. cbn [orb]. f_equal. lia.
    + specialize (Hlines k Hk). by replace (k + 0 * 8) with k in Hlines by lia.
  - intros j Hj. rewrite Hout by lia. apply Z.bits_0.
Qed.

Lemma transactions_start_at_port_0_witness :
  chip_ok booted_chip /\
  exists c1 h1 c2 h2,
    run [EvConnect 0x22 false; EvWrite 0xf0] booted_chip booted_host
    = Some (c1, h1) /\
    on_i2c_connect c1 h1 0x22 false = (c2, h2, true) /\
    i2c_portcount c2 = 0 /\
    (exists c3, on_i2c_read c2 = Some (c3, inputValue c2 mod 256) /\
                i2c_portcount c3 = 1) /\
    (exists c3 h3,
       on_i2c_write c2 h2 0x0f = Some (c3, h3, true) /\
       i2c_portcount c3 = 1 /\
       (forall k, 0 <= k < 8 ->
          Z.testbit (inputMask c3) k = Z.testbit 0x0f k /\
          if Z.testbit 0x0f k then monitored c3 h3 k else driven_low c3 h3 k) /\
       (forall j, 8 <= j < 16 -> Z.testbit (inputMask c3) j = false)).
Proof.
  split; [exact booted_chip_ok|].
  apply (transactions_start_at_port_0 booted_chip booted_host
           [EvConnect 0x22 false; EvWrite 0xf0] 0x22 false 0x0f).
  exact booted_chip_ok.
Defined.

(** X12.  Between the two bytes of a write the high port is blind.  After
    the first byte, lines 8-15 may still be watched inputs, but their mask
    bits are clear: a monitored-line change that arrives then recomputes
    [inputValue] from lines 0-7 only, so the value is below 256 and bits
    8-15 read 0 whatever those pins do. *)
Theorem high_port_blind_between_bytes c h d0 pin value :
  chip_ok c -> i2c_portcount c = 0 ->
  exists c1 h1 c2 h2,
    on_i2c_write c h d0 = Some (c1, h1, true) /\
    dispatch (EvIoChange pin value) c1 h1 = Some (c2, h2, Void) /\
    (forall i, 8 <= i < 16 -> Z.testbit (inputValue c2) i = false) /\
    (forall i, 0 <= i < 8 ->
       Z.testbit (inputValue c2) i =
       Z.testbit d0 i && line_level c (set_level pin value h) i) /\
    0 <= inputValue c2 < 256.
Proof.
  intros Hok H0.
  destruct (on_i2c_write_lines c h d0 Hok) as
    (c1 & h1 & Hw & Hok1 & _ & Hio1 & _ & Hin & Hout & _).
  pose proof (on_i2c_write_spec c h d0 (ok_io_length _ Hok)
                (ok_io_nodup _ Hok) (ok_portcount _ Hok)) as
    (m & h1' & Hw' & _ & _ & _ & Hl & _).
  rewrite Hw in Hw'. injection Hw' as _ Hh1. subst h1'.
  unfold in_port, mask_before_write in *. rewrite H0 in *.
  cbn [Z.eqb] in Hin, Hout.
  destruct (io_change_spec c1 h1 pin value (ok_io_length _ Hok1)) as
    (v & h2 & Hd & Hbits & _).
  exists c1, h1, (set_inputValue v c1), h2.
  split; [done|]. split; [done|]. cbn [inputValue set_inputValue].
  assert (Hhigh : forall i, 8 <= i -> Z.testbit v i = false).
  { intros i Hi. rewrite Hbits by lia. destruct (decide (i < 16)).
    - rewrite Hout, Z.bits_0 by lia. by rewrite andb_false_r.
    - by rewrite bool_decide_eq_false_2 by lia. }
  split; [intros i Hi; apply Hhigh; lia|]. split.
  - intros i Hi. rewrite Hbits, bool_decide_eq_true_2 by lia. cbn [andb].
    rewrite Hin, Z.bits_0 by lia. cbn [orb].
    replace (i - 0 * 8) with i by lia. f_equal.
    unfold line_level, pin_read. rewrite Hio1.
    destruct (array_get (io c) i); [|done].
    cbn [set_level pin_levels]. by rewrite Hl.
  - assert (Hv : v = u8 v).
    { apply Z.bits_inj'. intros j Hj. rewrite u8_testbit by done.
      case_bool_decide; [done|]. apply Hhigh. lia. }
    rewrite Hv. unfold u8. apply Z.mod_pos_bound. lia.
Qed.

Lemma high_port_blind_between_bytes_witness :
  chip_ok booted_chip /\ i2c_portcount booted_chip = 0 /\
  exists c1 h1 c2 h2,
    on_i2c_write booted_chip booted_host 0xff = Some (c1, h1, true) /\
    dispatch (EvIoChange "P10" true) c1 h1 = Some (c2, h2, Void) /\
    (forall i, 8 <= i < 16 -> Z.testbit (inputValue c2) i = false) /\
    (forall i, 0 <= i < 8 ->
       Z.testbit (inputValue c2) i =
       Z.testbit 0xff i
       && line_level booted_chip (set_level "P10" true booted_host) i) /\
    0 <= inputValue c2 < 256.
Proof.
  split; [exact booted_chip_ok|]. split; [reflexivity|].
  apply (high_port_blind_between_bytes booted_chip booted_host 0xff "P10" true
           booted_chip_ok).
  reflexivity.
Defined.

(** On the booted chip, with every pin still high and nothing changed since
    the last read, the byte 0xFF followed by a callback for P10 leaves
    [inputValue] at 0x00ff against a snapshot of 0xffff: the interrupt line
    is driven low. *)
Example interrupt_between_bytes :
  option_map
    (fun s => (inputValue (fst s), lastReadValue (fst s),
               pin_modes (snd s) !! "nINT"))
    (run [EvConnect 0x22 true; EvConnect 0x22 false; EvWrite 0xff;
          EvIoChange "P10" true] booted_chip booted_host)
  = Some (0x00ff, 0xffff, Some OUTPUT_LOW).
Proof. vm_compute. reflexivity. Qed.
